(** * Tripaneer booking manager: derivations, persistence and dashboard queries

    A shallow embedding of [web3.py] (the Streamlit dashboard) and of the two
    helpers it shares with [app.py] ([calculate_nights], [determine_hostel]),
    followed by the properties of the normalisation, merge and aggregation
    code.

    Conventions of the embedding.
    - A Python [str] is a [string]; a character is a code point below 256
      (Latin-1), which is enough for every literal of the program.
    - A booking is the [dict] both creation paths build, as a record.
    - [try]/[except] blocks become [option] or [result] values; the exception
      classes that an [except] clause names are kept.
    - The JSON file, the portal pages and the form widgets are inputs of the
      functions that read them. *)

From Stdlib Require Import ZArith Lia Bool Ascii String List DecimalString DecimalPos Sorted.
From stdpp Require Import base option list strings gmap.

Open Scope Z_scope.

(** ** Python built-ins used by the program *)

Module Py.

Definition chars (s : string) : list ascii := list_ascii_of_string s.
Definition str (l : list ascii) : string := string_of_list_ascii l.

Definition code (c : ascii) : Z := Z.of_N (N_of_ascii c).
Definition chr (z : Z) : ascii := ascii_of_N (Z.to_N z).

Definition between (lo hi z : Z) : bool := (lo <=? z) && (z <=? hi).

(** [\d] and the digits of [int()], on Latin-1. *)
Definition is_digit (c : ascii) : bool := between 48 57 (code c).
Definition digit_val (c : ascii) : Z := code c - 48.

(** White space as [int()] strips it: TAB..CR, space, NEL, NBSP. *)
Definition is_space (c : ascii) : bool :=
  let z := code c in
  between 9 13 z || (z =? 32) || (z =? 133) || (z =? 160).

(** [str.lower] and [str.upper] on one Latin-1 character.  The upper case
    of the micro sign, of the sharp s and of the y with diaeresis lies
    outside of Latin-1: they are left as they are. *)
Definition is_upper (c : ascii) : bool :=
  let z := code c in
  between 65 90 z || (between 192 222 z && negb (z =? 215)).

Definition is_lower (c : ascii) : bool :=
  let z := code c in
  between 97 122 z || (between 224 254 z && negb (z =? 247)).

Definition lower_char (c : ascii) : ascii :=
  if is_upper c then chr (code c + 32) else c.

Definition upper_char (c : ascii) : ascii :=
  if is_lower c then chr (code c - 32) else c.

Fixpoint lower (s : string) : string :=
  match s with
  | EmptyString => EmptyString
  | String c t => String (lower_char c) (lower t)
  end.

(** [str.capitalize]: first character upper-cased, the rest lower-cased. *)
Definition capitalize (s : string) : string :=
  match s with
  | EmptyString => EmptyString
  | String c t => String (upper_char c) (lower t)
  end.

(** [needle in hay]. *)
Fixpoint contains (needle hay : string) : bool :=
  String.prefix needle hay ||
  match hay with
  | EmptyString => false
  | String _ t => contains needle t
  end.

(** Truthiness of a [str]. *)
Definition truthy (s : string) : bool :=
  match s with EmptyString => false | _ => true end.

(** *** [int(str)] *)

Fixpoint lstrip (l : list ascii) : list ascii :=
  match l with
  | c :: t => if is_space c then lstrip t else l
  | [] => []
  end.

Definition strip (l : list ascii) : list ascii :=
  rev (lstrip (rev (lstrip l))).

(** Digits with single underscores between them, most significant first.
    [sep] tells that the previous character was an underscore. *)
Fixpoint digits_from (acc : Z) (sep : bool) (l : list ascii) : option Z :=
  match l with
  | [] => if sep then None else Some acc
  | c :: t =>
      if is_digit c then digits_from (10 * acc + digit_val c) false t
      else if Ascii.eqb c "_" then
             if sep then None else digits_from acc true t
           else None
  end.

Definition unsigned_literal (l : list ascii) : option Z :=
  match l with
  | c :: t => if is_digit c then digits_from (digit_val c) false t else None
  | [] => None
  end.

(** [sys.get_int_max_str_digits()], the default. *)
Definition int_max_str_digits : nat := 4300.

Definition count_digits (l : list ascii) : nat :=
  List.length (List.filter is_digit l).

(** [int(s)]: [None] stands for [ValueError]. *)
Definition int (s : string) : option Z :=
  let body := strip (chars s) in
  if (int_max_str_digits <? count_digits body)%nat then None
  else
    match body with
    | c :: t =>
        if Ascii.eqb c "-" then Z.opp <$> unsigned_literal t
        else if Ascii.eqb c "+" then unsigned_literal t
             else unsigned_literal body
    | [] => None
    end.

(** [str(int)]. *)
Definition str_of_int (z : Z) : string :=
  NilEmpty.string_of_int (Z.to_int z).

(** *** [datetime.date] *)

Record date : Type := mkdate { year : Z; month : Z; day : Z }.

Definition is_leap (y : Z) : bool :=
  (y mod 4 =? 0) && (negb (y mod 100 =? 0) || (y mod 400 =? 0)).

Definition days_in_month (y m : Z) : Z :=
  if m =? 2 then (if is_leap y then 29 else 28)
  else if (m =? 4) || (m =? 6) || (m =? 9) || (m =? 11) then 30
       else 31.

Definition days_before_year (y : Z) : Z :=
  let p := y - 1 in p * 365 + p / 4 - p / 100 + p / 400.

(** Days of the year before the first of month [m]. *)
Definition days_before_month (y m : Z) : Z :=
  fold_right Z.add 0
    (map (days_in_month y) (map Z.of_nat (seq 1 (Z.to_nat (m - 1))))).

Definition toordinal (d : date) : Z :=
  days_before_year (year d) + days_before_month (year d) (month d) + day d.

(** [(a - b).days]. *)
Definition days_between (a b : date) : Z := toordinal a - toordinal b.

(** [a <= b]: dates compare as their (year, month, day) triples. *)
Definition date_le (a b : date) : bool :=
  (year a <? year b)
  || ((year a =? year b)
      && ((month a <? month b)
          || ((month a =? month b) && (day a <=? day b)))).

Definition date_eqb (a b : date) : bool :=
  (year a =? year b) && (month a =? month b) && (day a =? day b).

(** The constructor's range check: [date(y, m, d)] raises [ValueError]
    outside of it. *)
Definition valid_date (d : date) : bool :=
  between 1 9999 (year d) && between 1 12 (month d)
  && between 1 (days_in_month (year d) (month d)) (day d).

(** *** [datetime.strptime(s, "%Y-%b-%d")] *)

Definition month_abbr : list string :=
  ["jan"; "feb"; "mar"; "apr"; "may"; "jun";
   "jul"; "aug"; "sep"; "oct"; "nov"; "dec"].

Fixpoint index_from (i : Z) (x : string) (l : list string) : option Z :=
  match l with
  | [] => None
  | y :: t => if String.eqb x y then Some i else index_from (i + 1) x t
  end.

(** [%Y] is [\d\d\d\d]. *)
Definition scan_year (l : list ascii) : option (Z * list ascii) :=
  match l with
  | a :: b :: c :: d :: r =>
      if is_digit a && is_digit b && is_digit c && is_digit d
      then Some (1000 * digit_val a + 100 * digit_val b
                 + 10 * digit_val c + digit_val d, r)
      else None
  | _ => None
  end.

(** [%b] matches an abbreviated month name, ignoring case. *)
Definition scan_month (l : list ascii) : option (Z * list ascii) :=
  match l with
  | a :: b :: c :: r =>
      match index_from 1 (lower (str [a; b; c])) month_abbr with
      | Some m => Some (m, r)
      | None => None
      end
  | _ => None
  end.

(** [%d] is [3[0-1]|[1-2]\d|0[1-9]|[1-9]| [1-9]]; the first alternative
    that matches is taken. *)
Definition scan_day (l : list ascii) : option (Z * list ascii) :=
  let nonzero c := between 49 57 (code c) in
  let alt1 :=
    match l with
    | a :: b :: r =>
        if Ascii.eqb a "3" && between 48 49 (code b)
        then Some (30 + digit_val b, r) else None
    | _ => None
    end in
  let alt2 :=
    match l with
    | a :: b :: r =>
        if between 49 50 (code a) && is_digit b
        then Some (10 * digit_val a + digit_val b, r) else None
    | _ => None
    end in
  let alt3 :=
    match l with
    | a :: b :: r =>
        if Ascii.eqb a "0" && nonzero b then Some (digit_val b, r) else None
    | _ => None
    end in
  let alt4 :=
    match l with
    | a :: r => if nonzero a then Some (digit_val a, r) else None
    | _ => None
    end in
  let alt5 :=
    match l with
    | a :: b :: r =>
        if Ascii.eqb a " " && nonzero b then Some (digit_val b, r) else None
    | _ => None
    end in
  match alt1, alt2, alt3, alt4 with
  | Some v, _, _, _ => Some v
  | None, Some v, _, _ => Some v
  | None, None, Some v, _ => Some v
  | None, None, None, Some v => Some v
  | None, None, None, None => alt5
  end.

Definition scan_dash (l : list ascii) : option (list ascii) :=
  match l with
  | c :: r => if Ascii.eqb c "-" then Some r else None
  | [] => None
  end.

(** [None] stands for [ValueError]: no match, unconverted data left over,
    or a day or year outside of the calendar. *)
Definition strptime (s : string) : option date :=
  '(y, r1) ← scan_year (chars s);
  r2 ← scan_dash r1;
  '(m, r3) ← scan_month r2;
  r4 ← scan_dash r3;
  '(d, r5) ← scan_day r4;
  match r5 with
  | [] => let dt := mkdate y m d in
          if valid_date dt then Some dt else None
  | _ :: _ => None
  end.

(** *** [date.strftime("%Y-%b-%d")] *)

Definition month_name : list string :=
  ["Jan"; "Feb"; "Mar"; "Apr"; "May"; "Jun";
   "Jul"; "Aug"; "Sep"; "Oct"; "Nov"; "Dec"].

Definition digit_char (z : Z) : ascii := chr (48 + z mod 10).

Definition pad2 (z : Z) : string :=
  str [digit_char (z / 10); digit_char z].

Definition pad4 (z : Z) : string :=
  str [digit_char (z / 1000); digit_char (z / 100);
       digit_char (z / 10); digit_char z].

Definition strftime (d : date) : string :=
  pad4 (year d) +:+ "-"
  +:+ nth (Z.to_nat (month d - 1)) month_name "" +:+ "-"
  +:+ pad2 (day d).

End Py.

(** ** The booking record

    The keys of the [dict] that [extract_bookings_from_list] and
    [add_manual_booking_form] build.  A scraped booking has no ["source"]
    key and may carry [None] as its conversation link. *)

Record Booking : Type := mkBooking {
  full_name : string;
  package_name : string;
  hostel : string;
  price : string;
  arrival_date : string;
  departure_date : string;
  number_of_nights : Z;
  number_of_guests : string;
  room_type : string;
  conversation_link : option string;
  booking_type : string;
  source : option string
}.

(** ** Derivations ([web3.py] 81-97, [app.py] 16-32) *)

Definition calculate_nights (arrival_date departure_date : string) : Z :=
  match Py.strptime arrival_date with
  | None => 0
  | Some arrival =>
      match Py.strptime departure_date with
      | None => 0
      | Some departure =>
          let nights := Py.days_between departure arrival in
          Z.max nights 1
      end
  end.

Definition determine_hostel (package_name : string) : string :=
  let package_name_lower := Py.lower package_name in
  if Py.contains "7 day" package_name_lower
     && Py.contains "taghazout" package_name_lower
  then "Taghazout"
  else "Tamraght".

(** ** The portal, as the scraper sees it *)

(** A [div] of the conversation page: the text of its [dt] and [dd]. *)
Record Cell : Type := mkCell { dt : option string; dd : option string }.

(** Outcome of [session.get(conversation_link)] followed by the two
    [find_all] calls. *)
Inductive DetailFetch : Type :=
| DetailError
| DetailPage (status : Z) (guest_elements room_elements : list Cell).

(** An [li] of a bookings list.  [customer_name] is [None] without a
    [div.customer-name], [Some None] when the [div] has no [strong];
    likewise [listing_title] and its [p]. [inquiry_meta] holds the texts of
    the [strong] elements; the links hold the [href] attribute. *)
Record Item : Type := mkItem {
  customer_name : option (option string);
  listing_title : option (option string);
  inquiry_meta : option (list string);
  btn_info : option string;
  mobile_link : option string
}.

Inductive Fetch : Type :=
| FetchError
| Response (status : Z) (booking_lists : list (list Item)).

Record Portal : Type := mkPortal {
  bookings_overview : Fetch;
  conversation : string -> DetailFetch
}.

Definition base_url : string := "https://office.tripaneer.com".

(** [re.findall(r'\d+', s)[0]] when there is a match. *)
Fixpoint take_digits (l : list ascii) : list ascii :=
  match l with
  | c :: t => if Py.is_digit c then c :: take_digits t else []
  | [] => []
  end.

Fixpoint first_number (l : list ascii) : option (list ascii) :=
  match l with
  | [] => None
  | c :: t => if Py.is_digit c then Some (take_digits l) else first_number t
  end.

(** [s.split('\n')[0]]. *)
Fixpoint first_line (l : list ascii) : list ascii :=
  match l with
  | c :: t => if Ascii.eqb c "010" then [] else c :: first_line t
  | [] => []
  end.

(** The [for ... break] loops of [extract_guest_and_room_info]: the first
    cell whose [dt] mentions the label and which has a [dd]. *)
Fixpoint find_labelled (label : string) (cells : list Cell) : option string :=
  match cells with
  | [] => None
  | c :: t =>
      match dt c with
      | Some d =>
          if Py.contains label d
          then match dd c with
               | Some v => Some v
               | None => find_labelled label t
               end
          else find_labelled label t
      | None => find_labelled label t
      end
  end.

Definition extract_guest_and_room_info (P : Portal) (conversation_link : string)
  : string * string :=
  match conversation P conversation_link with
  | DetailError => ("Not found", "Not found")
  | DetailPage status guest_elements room_elements =>
      if status =? 200 then
        let guests :=
          match find_labelled "Guests" guest_elements with
          | Some guests_text =>
              match first_number (Py.chars guests_text) with
              | Some n => Py.str n
              | None => guests_text
              end
          | None => "Not found"
          end in
        let room_type :=
          match find_labelled "Room" room_elements with
          | Some room_text => Py.str (first_line (Py.chars room_text))
          | None => "Not found"
          end in
        (guests, room_type)
      else ("Not found", "Not found")
  end.

(** [l[i].get_text(strip=True) if len(l) > i else "Not found"]. *)
Definition strong_text (l : list string) (i : nat) : string :=
  match l !! i with Some s => s | None => "Not found" end.

(** A link element with a non-empty [href]. *)
Definition href_of (a : option string) : option string :=
  match a with
  | Some h => if Py.truthy h then Some (base_url +:+ h) else None
  | None => None
  end.

(** The body of the [for] loop of [extract_bookings_from_list]; [None] is an
    exception, caught by the [except Exception] of the loop: the item is
    skipped. *)
Definition extract_booking (P : Portal) (booking_type : string) (item : Item)
  : option Booking :=
  full_name ←
    match customer_name item with
    | Some strong => strong
    | None => Some "Not found"
    end;
  package_name ←
    match listing_title item with
    | Some p => p
    | None => Some "Not found"
    end;
  let '(price, arrival_date, departure_date) :=
    match inquiry_meta item with
    | Some strong_elements =>
        (strong_text strong_elements 0,
         strong_text strong_elements 1,
         strong_text strong_elements 2)
    | None => ("Not found", "Not found", "Not found")
    end in
  let nights :=
    if negb (String.eqb arrival_date "Not found")
       && negb (String.eqb departure_date "Not found")
    then calculate_nights arrival_date departure_date
    else 0 in
  let hostel := determine_hostel package_name in
  let conversation_link :=
    match href_of (btn_info item) with
    | Some l => Some l
    | None => href_of (mobile_link item)
    end in
  let '(guests, room_type) :=
    match conversation_link with
    | Some l => extract_guest_and_room_info P l
    | None => ("Not available", "Not available")
    end in
  Some {| full_name := full_name;
          package_name := package_name;
          hostel := hostel;
          price := price;
          arrival_date := arrival_date;
          departure_date := departure_date;
          number_of_nights := nights;
          number_of_guests := guests;
          room_type := room_type;
          conversation_link := conversation_link;
          booking_type := Py.capitalize booking_type;
          source := None |}.

Definition extract_bookings_from_list (P : Portal) (booking_list : list Item)
  (booking_type : string) : list Booking :=
  omap (extract_booking P booking_type) booking_list.

Definition extract_booking_data (logged_in : bool) (P : Portal) : list Booking :=
  if negb logged_in then []
  else
    match bookings_overview P with
    | FetchError => []
    | Response status booking_lists =>
        if negb (status =? 200) then []
        else
          let current_bookings :=
            match booking_lists !! 0%nat with
            | Some l => extract_bookings_from_list P l "current"
            | None => []
            end in
          let upcoming_bookings :=
            match booking_lists !! 1%nat with
            | Some l => extract_bookings_from_list P l "upcoming"
            | None => []
            end in
          current_bookings ++ upcoming_bookings
    end.

(** ** The persisted file ([web3.py] 14-35) *)

(** The exception classes that reading a file can raise.  [IOError] is an
    alias of [OSError]; [JSONDecodeError] and [UnicodeDecodeError] are two
    unrelated subclasses of [ValueError]. *)
Inductive Exn : Type := OSError | JSONDecodeError | UnicodeDecodeError.

Inductive result (A : Type) : Type :=
| Ok (a : A)
| Raise (e : Exn).
Arguments Ok {A} a.
Arguments Raise {A} e.

#[global] Instance result_bind : MBind result :=
  fun A B k r =>
    match r with
    | Ok a => k a
    | Raise e => Raise e
    end.

(** What a path that exists holds: something [open] refuses to read, bytes
    that are not UTF-8, text that is not JSON, or the JSON array of
    bookings that [json.dump] wrote. *)
Inductive File : Type :=
| Unreadable
| NotUtf8
| NotJson
| Json (bookings : list Booking).

(** The disk: the files by path, and the paths [open(.., 'w')] refuses. *)
Record Disk : Type := mkDisk {
  files : gmap string File;
  write_denied : gset string
}.

(** [with open(filename, 'r', encoding='utf-8') as f: json.load(f)]. *)
Definition json_load (f : File) : result (list Booking) :=
  match f with
  | Unreadable => Raise OSError
  | NotUtf8 => Raise UnicodeDecodeError
  | NotJson => Raise JSONDecodeError
  | Json bookings => Ok bookings
  end.

(** [except (IOError, json.JSONDecodeError)]. *)
Definition load_handles (e : Exn) : bool :=
  match e with
  | OSError | JSONDecodeError => true
  | UnicodeDecodeError => false
  end.

Definition load_bookings_from_json (filename : string) (d : Disk)
  : result (list Booking) :=
  match files d !! filename with
  | None => Ok []
  | Some f =>
      match json_load f with
      | Ok bookings => Ok bookings
      | Raise e => if load_handles e then Ok [] else Raise e
      end
  end.

(** The [except IOError] branch only reports: the file is left as it was. *)
Definition save_bookings_to_json (bookings : list Booking) (filename : string)
  (d : Disk) : Disk :=
  if decide (filename ∈ write_denied d) then d
  else {| files := <[filename := Json bookings]> (files d);
          write_denied := write_denied d |}.

Definition bookings_json : string := "bookings.json".

(** ** Insertion-ordered dictionaries ([defaultdict]) *)

(** [d[k] = f(d[k])], where a missing [k] starts from [dflt] and is added
    at the end. *)
Fixpoint update {V : Type} (k : string) (dflt : V) (f : V -> V)
  (d : list (string * V)) : list (string * V) :=
  match d with
  | [] => [(k, f dflt)]
  | (k', v) :: t =>
      if String.eqb k k' then (k', f v) :: t
      else (k', v) :: update k dflt f t
  end.

(** [d[k].append(x)] on a [defaultdict(list)]. *)
Definition append_to {A : Type} (k : string) (x : A)
  (d : list (string * list A)) : list (string * list A) :=
  update k [] (fun l => l ++ [x]) d.

Definition group_by {A : Type} (key : A -> string) (l : list A)
  : list (string * list A) :=
  fold_left (fun d x => append_to (key x) x d) l [].

(** [sorted] on the items of a dictionary: the keys are distinct, so the
    tuples are ordered by their keys, compared as strings. *)
Fixpoint insert_sorted {V : Type} (x : string * V) (l : list (string * V))
  : list (string * V) :=
  match l with
  | [] => [x]
  | y :: t =>
      if String.ltb (fst x) (fst y) then x :: l
      else y :: insert_sorted x t
  end.

Definition sorted {V : Type} (l : list (string * V)) : list (string * V) :=
  fold_left (fun acc x => insert_sorted x acc) l [].

(** ** Statistics ([web3.py] 252-280) *)

Record Stats : Type := mkStats {
  total_bookings : Z;
  current_bookings : Z;
  upcoming_bookings : Z;
  total_guests : Z
}.

Definition is_sentinel (s : string) : bool :=
  String.eqb s "Not found" || String.eqb s "Not available".

(** One turn of the guest-count loop, with its [try]/[except]. *)
Definition add_guests (total_guests : Z) (booking : Booking) : Z :=
  if negb (String.eqb (number_of_guests booking) "Not found")
     && negb (String.eqb (number_of_guests booking) "Not available")
  then match Py.int (number_of_guests booking) with
       | Some n => total_guests + n
       | None => total_guests
       end
  else total_guests.

Definition count_type (t : string) (bookings : list Booking) : Z :=
  Z.of_nat (length (filter (fun b => booking_type b = t) bookings)).

(** The four metrics shown; [None] when the function returns before
    showing anything. *)
Definition display_booking_stats (bookings : list Booking) : option Stats :=
  match bookings with
  | [] => None
  | _ :: _ =>
      Some {| total_bookings := Z.of_nat (length bookings);
              current_bookings := count_type "Current" bookings;
              upcoming_bookings := count_type "Upcoming" bookings;
              total_guests := fold_left add_guests bookings 0 |}
  end.

(** ** Current guests by hostel and room ([web3.py] 336-369) *)

Definition room_key (booking : Booking) : string :=
  if negb (String.eqb (room_type booking) "Not found")
  then room_type booking
  else "Unknown Room".

(** The sections shown: per hostel, the room groups in the order the
    dictionaries yield them. *)
Definition display_current_guests_by_hostel (bookings : list Booking)
  : list (string * list (string * list Booking)) :=
  let current_bookings :=
    filter (fun b => booking_type b = "Current") bookings in
  match current_bookings with
  | [] => []
  | _ :: _ =>
      let hostel_groups := group_by hostel current_bookings in
      map (fun '(hostel, bookings_list) =>
             (hostel, group_by room_key bookings_list))
          hostel_groups
  end.

(** ** Manual entry ([web3.py] 503-565) *)

Record Form : Type := mkForm {
  form_full_name : string;
  form_package_name : string;
  form_arrival_date : Py.date;
  form_departure_date : Py.date;
  form_hostel : string;
  form_room_type : string;
  form_number_of_guests : Z;
  form_price : string;
  form_conversation_link : string
}.

(** The [booking_data] dictionary of the form. *)
Definition manual_booking (f : Form) (today : Py.date) : Booking :=
  let nights := Py.days_between (form_departure_date f) (form_arrival_date f) in
  let booking_type :=
    if Py.date_le (form_arrival_date f) today
       && Py.date_le today (form_departure_date f)
    then "Current" else "Upcoming" in
  {| full_name := form_full_name f;
     package_name :=
       if Py.truthy (form_package_name f) then form_package_name f
       else Py.str_of_int nights +:+ "-day surf trip";
     hostel := form_hostel f;
     price := form_price f;
     arrival_date := Py.strftime (form_arrival_date f);
     departure_date := Py.strftime (form_departure_date f);
     number_of_nights := nights;
     number_of_guests := Py.str_of_int (form_number_of_guests f);
     room_type := form_room_type f;
     conversation_link :=
       Some (if Py.truthy (form_conversation_link f)
             then form_conversation_link f else "Not found");
     booking_type := booking_type;
     source := Some "manual" |}.

(** The submitted form: the disk afterwards, and the booking added when the
    required fields are filled in. *)
Definition add_manual_booking_form (f : Form) (today : Py.date) (d : Disk)
  : result (Disk * option Booking) :=
  if negb (Py.truthy (form_full_name f) && Py.truthy (form_room_type f))
  then Ok (d, None)
  else
    current_bookings ← load_bookings_from_json bookings_json d;
    let booking_data := manual_booking f today in
    Ok (save_bookings_to_json (current_bookings ++ [booking_data])
          bookings_json d,
        Some booking_data).

(** ** Occupancy report ([web3.py] 567-640) *)

Definition parse_date (date_str : string) : option Py.date :=
  Py.strptime date_str.

(** The body of the filtering loop: [true] when the booking is appended to
    [filtered_bookings]. *)
Definition in_period (selected_hostel : string)
  (selected_start_date selected_end_date : Py.date) (booking : Booking) : bool :=
  let hostel := hostel booking in
  let arrival_date := parse_date (arrival_date booking) in
  let departure_date := parse_date (departure_date booking) in
  let number_of_guests := number_of_guests booking in
  match arrival_date, departure_date with
  | Some arrival, Some departure =>
      if negb (Py.truthy hostel && Py.truthy number_of_guests)
         || is_sentinel number_of_guests
      then false
      else
        match Py.int number_of_guests with
        | None => false
        | Some num_guests =>
            (Py.date_le arrival selected_end_date
             && Py.date_le selected_start_date departure)
            && (String.eqb selected_hostel "All"
                || String.eqb hostel selected_hostel)
        end
  | _, _ => false
  end.

Definition filtered_bookings (selected_hostel : string)
  (selected_start_date selected_end_date : Py.date) (bookings : list Booking)
  : list Booking :=
  filter (fun b => in_period selected_hostel selected_start_date
                     selected_end_date b = true) bookings.

Record Occupancy : Type := mkOccupancy {
  guests : Z;
  departures : list (string * list Booking)
}.

(** One turn of the grouping loop; [None] if [int] raised. *)
Definition occupy (acc : option (list (string * Occupancy))) (booking : Booking)
  : option (list (string * Occupancy)) :=
  hostel_occupancy ← acc;
  num_guests ← Py.int (number_of_guests booking);
  Some (update (hostel booking) (mkOccupancy 0 [])
          (fun o => {| guests := guests o + num_guests;
                       departures :=
                         append_to (departure_date booking) booking
                           (departures o) |})
          hostel_occupancy).

Inductive Report : Type :=
| EndBeforeStart
| NoGuests
| Sections (hostels : list (string * (Z * list (string * list Booking))))
| Crash.

(** What the report shows: per hostel the guest total and the departure
    buckets, in display order. *)
Definition display_occupancy_by_hostel (bookings : list Booking)
  (selected_hostel : string) (selected_start_date selected_end_date : Py.date)
  : Report :=
  if negb (Py.date_le selected_start_date selected_end_date)
  then EndBeforeStart
  else
    match filtered_bookings selected_hostel selected_start_date
            selected_end_date bookings with
    | [] => NoGuests
    | filtered =>
        match fold_left occupy filtered (Some []) with
        | None => Crash
        | Some hostel_occupancy =>
            Sections
              (map (fun '(hostel, data) =>
                      (hostel, (guests data, sorted (departures data))))
                   hostel_occupancy)
        end
    end.

(** ** Refresh and save ([web3.py] 691-702) *)

(** Lines 696-702: merge the scraped bookings with the manual ones of the
    file and write the file; also the new [st.session_state.bookings]. *)
Definition refresh_and_merge (tripaneer_bookings : list Booking) (d : Disk)
  : result (Disk * list Booking) :=
  existing_data ← load_bookings_from_json bookings_json d;
  let manual_bookings :=
    filter (fun b => source b = Some "manual") existing_data in
  let all_bookings := tripaneer_bookings ++ manual_bookings in
  Ok (save_bookings_to_json all_bookings bookings_json d, all_bookings).

(** The button of the sidebar, pressed while the session is logged in. *)
Definition refresh_and_save (scraper_logged_in : bool) (P : Portal) (d : Disk)
  : result (Disk * list Booking) :=
  let tripaneer_bookings := extract_booking_data scraper_logged_in P in
  refresh_and_merge tripaneer_bookings d.

(** ** Arrivals and departures of a day ([web3.py] 371-501) *)

(** [d + timedelta(days=1)]: the date whose day number is one more; [None]
    stands for the [OverflowError] after 9999-12-31. *)
Definition add_one_day (d : Py.date) : option Py.date :=
  if Py.day d <? Py.days_in_month (Py.year d) (Py.month d)
  then Some (Py.mkdate (Py.year d) (Py.month d) (Py.day d + 1))
  else if Py.month d <? 12
       then Some (Py.mkdate (Py.year d) (Py.month d + 1) 1)
       else if Py.year d <? 9999
            then Some (Py.mkdate (Py.year d + 1) 1 1)
            else None.

(** [parsed == day], where [parsed] is a date or [None]. *)
Definition is_day (parsed : option Py.date) (day : Py.date) : bool :=
  match parsed with
  | Some d => Py.date_eqb d day
  | None => false
  end.

Record DayMovements : Type := mkDayMovements {
  day_arrivals : list Booking;
  day_departures : list Booking
}.

Definition display_specific_day_movements (bookings : list Booking)
  (selected_date : Py.date) : DayMovements :=
  fold_left
    (fun m booking =>
       let arrival_date := parse_date (arrival_date booking) in
       let departure_date := parse_date (departure_date booking) in
       {| day_arrivals :=
            if is_day arrival_date selected_date
            then day_arrivals m ++ [booking] else day_arrivals m;
          day_departures :=
            if is_day departure_date selected_date
            then day_departures m ++ [booking] else day_departures m |})
    bookings (mkDayMovements [] []).

Record Movements : Type := mkMovements {
  today_arrivals : list Booking;
  today_departures : list Booking;
  tomorrow_arrivals : list Booking;
  tomorrow_departures : list Booking
}.

(** One turn of the loop of [display_todays_movements]. *)
Definition record_movement (today tomorrow : Py.date) (m : Movements)
  (booking : Booking) : Movements :=
  let arrival_date := parse_date (arrival_date booking) in
  let departure_date := parse_date (departure_date booking) in
  let '(ta, wa) :=
    if is_day arrival_date today
    then (today_arrivals m ++ [booking], tomorrow_arrivals m)
    else if is_day arrival_date tomorrow
         then (today_arrivals m, tomorrow_arrivals m ++ [booking])
         else (today_arrivals m, tomorrow_arrivals m) in
  let '(td, wd) :=
    if is_day departure_date today
    then (today_departures m ++ [booking], tomorrow_departures m)
    else if is_day departure_date tomorrow
         then (today_departures m, tomorrow_departures m ++ [booking])
         else (today_departures m, tomorrow_departures m) in
  {| today_arrivals := ta; today_departures := td;
     tomorrow_arrivals := wa; tomorrow_departures := wd |}.

(** [today] is [datetime.now().date()]; [None] when [tomorrow] overflows. *)
Definition display_todays_movements (bookings : list Booking) (today : Py.date)
  : option Movements :=
  tomorrow ← add_one_day today;
  Some (fold_left (record_movement today tomorrow) bookings
          (mkMovements [] [] [] [])).

(** ** Login ([web3.py] 48-79) *)

(** The login page: the [GET] raised, or the page came with the [value] of
    its [csrfmiddlewaretoken] input ([None] without the input or without
    the attribute). *)
Inductive LoginPage : Type :=
| LoginPageError
| LoginForm (csrf : option string).

(** The portal's login endpoint: the page, and the status of the answer to
    the posted form ([None] when the [POST] raises). *)
Record LoginServer : Type := mkLoginServer {
  login_page : LoginPage;
  login_post : list (string * string) -> option Z
}.

Definition login_data (username password : string) (csrf : option string)
  : list (string * string) :=
  [("username", username); ("password", password)]
  ++ match csrf with
     | Some csrf_token =>
         if Py.truthy csrf_token
         then [("csrfmiddlewaretoken", csrf_token)] else []
     | None => []
     end.

(** [login]: the new [self.logged_in] and the returned value. *)
Definition login (srv : LoginServer) (username password : string)
  (logged_in : bool) : bool * bool :=
  match login_page srv with
  | LoginPageError => (logged_in, false)
  | LoginForm csrf =>
      match login_post srv (login_data username password csrf) with
      | Some status =>
          if status =? 200 then (true, true) else (logged_in, false)
      | None => (logged_in, false)
      end
  end.

(** ** The sidebar and the tabs ([web3.py] 642-750) *)

(** [scraper.logged_in], [st.session_state.logged_in] and
    [st.session_state.bookings]. *)
Record Session : Type := mkSession {
  scraper_flag : bool;
  session_flag : bool;
  session_bookings : list Booking
}.

Definition initial_session : Session := mkSession false false [].

(** One interaction: a button of the sidebar, or the submitted form of the
    manual-entry tab. *)
Inductive Action : Type :=
| PressLogin (srv : LoginServer) (username password : string)
| PressLogout
| PressLoad
| PressRefresh (P : Portal)
| SubmitManual (f : Form) (today : Py.date).

(** The run of [main] for one interaction.  The refresh button exists only
    while the session is logged in, the tabs only while the session holds
    bookings; an exception ends the run and leaves the state as it was. *)
Definition main_step (a : Action) (s : Session) (d : Disk) : Session * Disk :=
  match a with
  | PressLogin srv username password =>
      let '(flag, ok) := login srv username password (scraper_flag s) in
      (mkSession flag (if ok then true else session_flag s)
         (session_bookings s), d)
  | PressLogout => (mkSession false false [], d)
  | PressLoad =>
      match load_bookings_from_json bookings_json d with
      | Ok bookings => (mkSession (scraper_flag s) (session_flag s) bookings, d)
      | Raise _ => (s, d)
      end
  | PressRefresh P =>
      if session_flag s then
        match refresh_and_save (scraper_flag s) P d with
        | Ok (d', all_bookings) =>
            (mkSession (scraper_flag s) (session_flag s) all_bookings, d')
        | Raise _ => (s, d)
        end
      else (s, d)
  | SubmitManual f today =>
      match session_bookings s with
      | [] => (s, d)
      | _ :: _ =>
          match load_bookings_from_json bookings_json d,
                add_manual_booking_form f today d with
          | Ok current_bookings, Ok (d', Some booking_data) =>
              (mkSession (scraper_flag s) (session_flag s)
                 (current_bookings ++ [booking_data]), d')
          | _, _ => (s, d)
          end
      end
  end.

(** The state after a sequence of interactions. *)
Definition main_run (actions : list Action) (s : Session) (d : Disk)
  : Session * Disk :=
  fold_left (fun sd a => main_step a (fst sd) (snd sd)) actions (s, d).

(** ** Vocabulary of the statements *)

(** [n] occurs in [h] as a contiguous substring. *)
Definition occurs_in (n h : string) : Prop :=
  exists pre post : string, h = pre +:+ n +:+ post.

Definition Zsum (l : list Z) : Z := fold_right Z.add 0 l.

(** The guest counts that [int] accepts, in order. *)
Definition parsed_guests (bookings : list Booking) : list Z :=
  omap (fun b => Py.int (number_of_guests b)) bookings.

(** What the loaded file holds for the merge: nothing when the file is
    missing, unreadable or not JSON. *)
Definition stored (d : Disk) (filename : string) : list Booking :=
  match files d !! filename with
  | Some (Json bookings) => bookings
  | _ => []
  end.

Definition is_manual (b : Booking) : Prop := source b = Some "manual".

(** The selection rule of the occupancy report, as the specification words
    it: the hostel matches the filter, both dates parse and the stay
    overlaps the period, and the guest count is a number. *)
Definition overlaps (start end_ : Py.date) (b : Booking) : Prop :=
  exists arrival departure : Py.date,
    parse_date (arrival_date b) = Some arrival
    /\ parse_date (departure_date b) = Some departure
    /\ Py.date_le arrival end_ = true
    /\ Py.date_le start departure = true.

Definition hostel_matches (selected_hostel : string) (b : Booking) : Prop :=
  selected_hostel = "All" \/ hostel b = selected_hostel.

Definition numeric_guests (b : Booking) : Prop :=
  is_sentinel (number_of_guests b) = false
  /\ exists n : Z, Py.int (number_of_guests b) = Some n.

Definition selected (selected_hostel : string) (start end_ : Py.date)
  (b : Booking) : Prop :=
  hostel_matches selected_hostel b /\ overlaps start end_ b /\ numeric_guests b.

(** [d.get(k)] on an insertion-ordered dictionary. *)
Fixpoint assoc {V : Type} (k : string) (d : list (string * V)) : option V :=
  match d with
  | [] => None
  | (k', v) :: t => if String.eqb k k' then Some v else assoc k t
  end.

(** A group is shown only when it has a member. *)
Definition nonempty {A : Type} (l : list A) : option (list A) :=
  match l with
  | [] => None
  | _ :: _ => Some l
  end.

(** Dates are compared field by field. *)
#[global] Instance date_eq_dec : EqDecision Py.date.
Proof. solve_decision. Defined.

(** The dashboard shows nothing, or what the file holds, on a disk where
    the file can be written. *)
Definition shows_file (s : Session) (d : Disk) : Prop :=
  (bookings_json ∉ write_denied d)
  /\ (session_bookings s = []
      \/ files d !! bookings_json = Some (Json (session_bookings s))).

Definition is_submit (a : Action) : Prop :=
  match a with
  | SubmitManual _ _ => True
  | _ => False
  end.

(** The nights invariant of the data model. *)
Definition nights_invariant (b : Booking) : Prop :=
  0 <= number_of_nights b
  /\ forall arrival departure : Py.date,
       Py.strptime (arrival_date b) = Some arrival ->
       Py.strptime (departure_date b) = Some departure ->
       number_of_nights b = Z.max (Py.days_between departure arrival) 1.

(** Keys in ascending order, as strings and as the dates they spell. *)
Definition key_le {V : Type} (x y : string * V) : Prop :=
  String.leb (fst x) (fst y) = true.

Definition chronological (keys : list string) : Prop :=
  forall (i j : nat) (a b : string) (da db : Py.date),
    keys !! i = Some a -> keys !! j = Some b ->
    Py.strptime a = Some da -> Py.strptime b = Some db ->
    Py.toordinal da < Py.toordinal db ->
    (i < j)%nat.

(** ** Sample inputs *)

Definition jan (d : Z) : Py.date := Py.mkdate 2024 1 d.

(** The form as it opens, both dates on the same day. *)
Definition same_day_form : Form :=
  mkForm "Amina" "" (jan 5) (jan 5) "Tamraght" "Shared Dorm" 1 "N/A" "".

Definition backwards_form : Form :=
  mkForm "Amina" "" (jan 5) (jan 3) "Tamraght" "Shared Dorm" 1 "N/A" "".

Definition empty_disk : Disk := mkDisk ∅ ∅.

(** A list item without a conversation link, on a portal that answers. *)
Definition item_no_link : Item :=
  mkItem (Some (Some "Lina")) (Some (Some "Weekend Tamraght Trip"))
    (Some ["120 EUR"; "2024-Jan-10"; "2024-Jan-20"]) None None.

Definition portal_one_current : Portal :=
  mkPortal (Response 200 [[item_no_link]; []]) (fun _ => DetailError).

Definition portal_down : Portal :=
  mkPortal (Response 503 []) (fun _ => DetailError).

Definition stay (name hostel arrival departure guests room type : string)
  (src : option string) : Booking :=
  mkBooking name "Weekend Tamraght Trip" hostel "120 EUR" arrival departure
    (calculate_nights arrival departure) guests room None type src.

Definition stay_jan : Booking :=
  stay "Lina" "Tamraght" "2024-Jan-10" "2024-Jan-20" "3" "Dorm" "Current" None.

Definition stay_feb : Booking :=
  stay "Omar" "Tamraght" "2024-Jan-15" "2024-Feb-02" "2" "Dorm" "Current" None.

Definition stay_dec : Booking :=
  stay "Sara" "Taghazout" "2023-Dec-01" "2023-Dec-31" "1" "Private"
    "Upcoming" (Some "manual").

Definition stay_unknown_guests : Booking :=
  stay "Noor" "Tamraght" "2024-Jan-12" "2024-Jan-14" "Not found" "Dorm"
    "Upcoming" None.

(** The record that the scrape of [portal_one_current] gives. *)
Definition scraped_lina : Booking :=
  mkBooking "Lina" "Weekend Tamraght Trip" "Tamraght" "120 EUR"
    "2024-Jan-10" "2024-Jan-20" 10 "Not available" "Not available" None
    "Current" None.

(** ** Proof tactics *)

(** Case analysis on a month number known to lie in 1..12. *)
Ltac month_cases m :=
  let H := fresh "Hcase" in
  assert (H : m = 1 \/ m = 2 \/ m = 3 \/ m = 4 \/ m = 5 \/ m = 6 \/ m = 7
              \/ m = 8 \/ m = 9 \/ m = 10 \/ m = 11 \/ m = 12) by lia;
  repeat (destruct H as [-> | H]); [.. | subst m].

(** One digit of a printed number, read by [Py.digits_from]. *)
Ltac digit_step :=
  cbn [NilEmpty.string_of_uint];
  unfold Py.chars; cbn [list_ascii_of_string]; fold (Py.chars);
  cbn [Py.digits_from];
  match goal with
  | |- context [Py.is_digit ?c] =>
      change (Py.is_digit c) with true; cbv iota
  end;
  match goal with
  | |- context [Py.digit_val ?c] =>
      let v := eval vm_compute in (Py.digit_val c) in
      change (Py.digit_val c) with v
  end.

(** * Properties *)

(** ** The built-ins on sample inputs *)

Example strptime_accepts :
  map Py.strptime ["2024-Jan-15"; "2024-feb-2"; "2024-FEB-29"; "2024-Jan- 5";
                   "0001-Jan-01"; "9999-Dec-31"]
  = [Some (Py.mkdate 2024 1 15); Some (Py.mkdate 2024 2 2);
     Some (Py.mkdate 2024 2 29); Some (Py.mkdate 2024 1 5);
     Some (Py.mkdate 1 1 1); Some (Py.mkdate 9999 12 31)].
Proof. reflexivity. Qed.

Example strptime_rejects :
  map Py.strptime ["Not found"; "Not available"; "2023-Feb-29"; "2024-Jan-32";
                   "0000-Jan-01"; "2024-01-15"; "2024-Jan-15 "; "24-Jan-15";
                   "2024-January-15"; "2024-Jan-005"]
  = [None; None; None; None; None; None; None; None; None; None].
Proof. reflexivity. Qed.

Example toordinal_examples :
  map Py.toordinal [Py.mkdate 1 1 1; Py.mkdate 2000 1 1; Py.mkdate 2024 1 15;
                    Py.mkdate 2024 3 1; Py.mkdate 9999 12 31]
  = [1; 730120; 738900; 738946; 3652059].
Proof. reflexivity. Qed.

Example strftime_examples :
  map Py.strftime [Py.mkdate 2024 2 2; Py.mkdate 1000 12 31]
  = ["2024-Feb-02"; "1000-Dec-31"].
Proof. reflexivity. Qed.

Example int_examples :
  map Py.int ["2"; " 12 "; "+3"; "-4"; "1_000"; "007"; "Not found";
              "Not available"; ""; "1__0"; "_1"; "2 guests"; "1.5"]
  = [Some 2; Some 12; Some 3; Some (-4); Some 1000; Some 7; None;
     None; None; None; None; None; None].
Proof. reflexivity. Qed.

Example str_of_int_examples :
  map Py.str_of_int [0; 7; -2; 120] = ["0"; "7"; "-2"; "120"].
Proof. reflexivity. Qed.

Example capitalize_examples :
  map Py.capitalize ["current"; "upcoming"] = ["Current"; "Upcoming"].
Proof. reflexivity. Qed.

(** ** Strings *)

Lemma append_cons (c : ascii) (s t : string) :
  String c s +:+ t = String c (s +:+ t).
Proof. reflexivity. Qed.

Lemma append_empty (t : string) : EmptyString +:+ t = t.
Proof. reflexivity. Qed.

Lemma prefix_occurs (p s : string) :
  String.prefix p s = true <-> exists t : string, s = p +:+ t.
Proof.
  revert s. induction p as [|a p IH]; intros s; simpl.
  - destruct s; split; eauto.
  - destruct s as [|b s]; simpl.
    + split; [discriminate | intros [t Ht]; discriminate].
    + destruct (ascii_dec a b) as [->|Hne].
      * rewrite IH. split; intros [t Ht]; exists t;
          rewrite append_cons in *; congruence.
      * split; [discriminate |].
        intros [t Ht]. rewrite append_cons in Ht. congruence.
Qed.

Lemma contains_occurs (n h : string) :
  Py.contains n h = true <-> occurs_in n h.
Proof.
  unfold occurs_in. induction h as [|c h IH]; cbn [Py.contains].
  - rewrite orb_false_r, prefix_occurs. split.
    + intros [t Ht]. exists EmptyString, t. exact Ht.
    + intros [pre [post H]]. destruct pre as [|c pre].
      * rewrite append_empty in H. eauto.
      * rewrite append_cons in H. discriminate.
  - rewrite orb_true_iff, IH. split.
    + intros [H | [pre [post H]]].
      * apply (proj1 (prefix_occurs n (String c h))) in H as [t Ht].
        exists EmptyString, t. exact Ht.
      * exists (String c pre), post. rewrite append_cons. now rewrite H.
    + intros [pre [post H]]. destruct pre as [|c' pre].
      * left. apply prefix_occurs. rewrite append_empty in H. eauto.
      * right. exists pre, post. rewrite append_cons in H. congruence.
Qed.

(** ** C7: hostel classification *)

(** C7. [determine_hostel] answers "Taghazout" exactly when the lower-cased
    package name contains both "7 day" and "taghazout", and "Tamraght" in
    every other case; the three package names of the specification classify
    as Taghazout, Tamraght and Tamraght. *)
Theorem determine_hostel_spec (package_name : string) :
  (determine_hostel package_name = "Taghazout"
   <-> occurs_in "7 day" (Py.lower package_name)
       /\ occurs_in "taghazout" (Py.lower package_name))
  /\ (determine_hostel package_name = "Tamraght"
      <-> ~ (occurs_in "7 day" (Py.lower package_name)
             /\ occurs_in "taghazout" (Py.lower package_name)))
  /\ determine_hostel "7 Day Surf Taghazout Package" = "Taghazout"
  /\ determine_hostel "Weekend Tamraght Trip" = "Tamraght"
  /\ determine_hostel "7 Day Essaouira Trip" = "Tamraght".
Proof.
  rewrite <- !contains_occurs, <- andb_true_iff.
  unfold determine_hostel.
  destruct (Py.contains "7 day" (Py.lower package_name)
            && Py.contains "taghazout" (Py.lower package_name)).
  - repeat split; auto; try discriminate. intros H; now elim H.
  - repeat split; auto; try discriminate.
Qed.

(** ** Dates: [strptime] reads back what [strftime] prints *)

Lemma chars_append (a b : string) :
  Py.chars (a +:+ b) = (Py.chars a ++ Py.chars b)%list.
Proof.
  unfold Py.chars. induction a as [|c a IH].
  - reflexivity.
  - rewrite append_cons. simpl. now rewrite IH.
Qed.

Lemma code_chr (z : Z) : 0 <= z < 256 -> Py.code (Py.chr z) = z.
Proof.
  intros Hz. unfold Py.code, Py.chr.
  rewrite N_ascii_embedding by lia. lia.
Qed.

Lemma digit_char_code (z : Z) : Py.code (Py.digit_char z) = 48 + z mod 10.
Proof.
  unfold Py.digit_char. apply code_chr.
  pose proof (Z.mod_pos_bound z 10). lia.
Qed.

Lemma digit_char_is_digit (z : Z) : Py.is_digit (Py.digit_char z) = true.
Proof.
  unfold Py.is_digit, Py.between. rewrite digit_char_code.
  pose proof (Z.mod_pos_bound z 10). lia.
Qed.

Lemma digit_char_val (z : Z) : Py.digit_val (Py.digit_char z) = z mod 10.
Proof. unfold Py.digit_val. rewrite digit_char_code. lia. Qed.

Lemma scan_year_pad4 (y : Z) (r : list ascii) :
  0 <= y <= 9999 ->
  Py.scan_year (Py.chars (Py.pad4 y) ++ r) = Some (y, r).
Proof.
  intros Hy. unfold Py.pad4, Py.chars, Py.str.
  rewrite list_ascii_of_string_of_list_ascii.
  cbn [app Py.scan_year].
  rewrite !digit_char_is_digit, !digit_char_val. cbn [andb].
  do 2 f_equal. clear r.
  pose proof (Z.div_mod y 1000). pose proof (Z.mod_pos_bound y 1000).
  pose proof (Z.div_mod y 100). pose proof (Z.mod_pos_bound y 100).
  pose proof (Z.div_mod y 10). pose proof (Z.mod_pos_bound y 10).
  pose proof (Z.div_mod (y / 1000) 10). pose proof (Z.mod_pos_bound (y / 1000) 10).
  pose proof (Z.div_mod (y / 100) 10). pose proof (Z.mod_pos_bound (y / 100) 10).
  pose proof (Z.div_mod (y / 10) 10). pose proof (Z.mod_pos_bound (y / 10) 10).
  assert (y / 1000 / 10 = 0) by (rewrite Z.div_div by lia; apply Z.div_small; lia).
  assert (y / 100 / 10 = y / 1000) by (rewrite Z.div_div by lia; reflexivity).
  assert (y / 10 / 10 = y / 100) by (rewrite Z.div_div by lia; reflexivity).
  lia.
Qed.

Lemma small_cases (lo hi z : Z) (P : Z -> Prop) :
  lo <= z <= hi ->
  Forall P (map (fun i => lo + Z.of_nat i) (seq 0 (Z.to_nat (hi - lo + 1)))) ->
  P z.
Proof.
  intros Hz HP. apply (proj1 (List.Forall_forall _ _) HP).
  apply List.in_map_iff. exists (Z.to_nat (z - lo)). split; [lia |].
  apply List.in_seq. lia.
Qed.

Lemma scan_month_name (m : Z) (r : list ascii) :
  1 <= m <= 12 ->
  Py.scan_month
    (Py.chars (nth (Z.to_nat (m - 1)) Py.month_name EmptyString) ++ r)
  = Some (m, r).
Proof.
  intros Hm. revert r. pattern m. apply (small_cases 1 12 m); [exact Hm |].
  repeat constructor.
Qed.

Lemma scan_day_pad2 (d : Z) :
  1 <= d <= 31 -> Py.scan_day (Py.chars (Py.pad2 d)) = Some (d, []).
Proof.
  intros Hd. pattern d. apply (small_cases 1 31 d); [exact Hd |].
  repeat constructor.
Qed.

Lemma days_in_month_le_31 (y m : Z) : 28 <= Py.days_in_month y m <= 31.
Proof.
  unfold Py.days_in_month.
  repeat match goal with |- context [if ?c then _ else _] => destruct c end; lia.
Qed.

(** Every calendar date is read back from its [%Y-%b-%d] text. *)
Lemma strptime_strftime (d : Py.date) :
  Py.valid_date d = true -> Py.strptime (Py.strftime d) = Some d.
Proof.
  destruct d as [y m dd]. intros Hv.
  assert (Hr := Hv). unfold Py.valid_date, Py.between in Hr. cbn in Hr.
  pose proof (days_in_month_le_31 y m).
  assert (Hy : 0 <= y <= 9999) by lia.
  assert (Hm : 1 <= m <= 12) by lia.
  assert (Hd : 1 <= dd <= 31) by lia.
  unfold Py.strptime, Py.strftime. cbn [Py.year Py.month Py.day].
  rewrite !chars_append.
  rewrite scan_year_pad4 by exact Hy. cbn [mbind option_bind].
  change (Py.chars "-") with ["-"%char]. cbn [app Py.scan_dash].
  change (Ascii.eqb "-" "-") with true. cbn [mbind option_bind].
  rewrite scan_month_name by exact Hm. cbn [mbind option_bind Py.scan_dash].
  change (Ascii.eqb "-" "-") with true. cbn [mbind option_bind].
  rewrite scan_day_pad2 by exact Hd. cbn [mbind option_bind].
  now rewrite Hv.
Qed.

(** ** Dates: day numbers follow the calendar order *)

Lemma strptime_valid (s : string) (d : Py.date) :
  Py.strptime s = Some d -> Py.valid_date d = true.
Proof.
  unfold Py.strptime.
  destruct (Py.scan_year (Py.chars s)) as [[y r1]|]; cbn [mbind option_bind]; [| discriminate].
  destruct (Py.scan_dash r1) as [r2|]; cbn [mbind option_bind]; [| discriminate].
  destruct (Py.scan_month r2) as [[m r3]|]; cbn [mbind option_bind]; [| discriminate].
  destruct (Py.scan_dash r3) as [r4|]; cbn [mbind option_bind]; [| discriminate].
  destruct (Py.scan_day r4) as [[dd r5]|]; cbn [mbind option_bind]; [| discriminate].
  destruct r5; [| discriminate].
  destruct (Py.valid_date (Py.mkdate y m dd)) eqn:E; [| discriminate].
  now intros [= <-].
Qed.

Lemma days_before_year_succ (y : Z) :
  Py.days_before_year (y + 1)
  = Py.days_before_year y + (if Py.is_leap y then 366 else 365).
Proof.
  unfold Py.days_before_year, Py.is_leap. cbv zeta.
  replace (y + 1 - 1) with y by lia.
  destruct (Z.eqb_spec (y mod 4) 0), (Z.eqb_spec (y mod 100) 0),
    (Z.eqb_spec (y mod 400) 0); cbn [negb andb orb];
    Z.div_mod_to_equations; lia.
Qed.

Lemma days_before_year_mono (y1 y2 : Z) :
  y1 < y2 -> Py.days_before_year y1 + 365 <= Py.days_before_year y2.
Proof.
  intros H. replace y2 with (y1 + 1 + Z.of_nat (Z.to_nat (y2 - y1 - 1))) by lia.
  induction (Z.to_nat (y2 - y1 - 1)) as [|n IH].
  - rewrite Z.add_0_r, days_before_year_succ. destruct (Py.is_leap y1); lia.
  - replace (y1 + 1 + Z.of_nat (S n)) with (y1 + 1 + Z.of_nat n + 1) by lia.
    rewrite days_before_year_succ. destruct (Py.is_leap _); lia.
Qed.

(** The table of [datetime]: days before each month, one more after
    February in a leap year. *)
Lemma days_before_month_table (y m : Z) :
  1 <= m <= 12 ->
  Py.days_before_month y m
  = match m with
    | 1 => 0 | 2 => 31 | 3 => 59 | 4 => 90 | 5 => 120 | 6 => 151
    | 7 => 181 | 8 => 212 | 9 => 243 | 10 => 273 | 11 => 304 | _ => 334
    end
    + (if (2 <? m) && Py.is_leap y then 1 else 0).
Proof.
  intros Hm. month_cases m;
    unfold Py.days_before_month, Py.days_in_month;
    destruct (Py.is_leap y); reflexivity.
Qed.

Lemma day_of_year_bounds (d : Py.date) :
  Py.valid_date d = true ->
  1 <= Py.days_before_month (Py.year d) (Py.month d) + Py.day d
    <= (if Py.is_leap (Py.year d) then 366 else 365).
Proof.
  destruct d as [y m dd]. unfold Py.valid_date, Py.between.
  cbn [Py.year Py.month Py.day]. intros H.
  assert (Hm : 1 <= m <= 12) by lia.
  rewrite (days_before_month_table y m Hm).
  revert H. unfold Py.days_in_month.
  month_cases m; destruct (Py.is_leap y); cbn; lia.
Qed.

Lemma toordinal_same_year (y m1 d1 m2 d2 : Z) :
  Py.valid_date (Py.mkdate y m1 d1) = true ->
  Py.valid_date (Py.mkdate y m2 d2) = true ->
  m1 < m2 ->
  Py.toordinal (Py.mkdate y m1 d1) < Py.toordinal (Py.mkdate y m2 d2).
Proof.
  unfold Py.valid_date, Py.between, Py.toordinal.
  cbn [Py.year Py.month Py.day]. intros H1 H2 Hlt.
  assert (Hm1 : 1 <= m1 <= 12) by lia.
  assert (Hm2 : 1 <= m2 <= 12) by lia.
  rewrite (days_before_month_table y m1 Hm1), (days_before_month_table y m2 Hm2).
  revert H1 H2. unfold Py.days_in_month.
  month_cases m1; month_cases m2; try lia; destruct (Py.is_leap y); cbn; lia.
Qed.

(** On calendar dates the comparison of the triples is the comparison of
    the day numbers. *)
Lemma date_le_toordinal (a b : Py.date) :
  Py.valid_date a = true -> Py.valid_date b = true ->
  Py.date_le a b = true <-> Py.toordinal a <= Py.toordinal b.
Proof.
  intros Ha Hb.
  pose proof (day_of_year_bounds a Ha) as Ba.
  pose proof (day_of_year_bounds b Hb) as Bb.
  destruct a as [ya ma da], b as [yb mb db].
  unfold Py.date_le. cbn [Py.year Py.month Py.day] in *.
  destruct (Z.lt_trichotomy ya yb) as [Hy | [-> | Hy]].
  - pose proof (days_before_year_succ ya).
    assert (Py.days_before_year (ya + 1) <= Py.days_before_year yb).
    { destruct (Z.eq_dec (ya + 1) yb) as [<- | Hne]; [lia |].
      pose proof (days_before_year_mono (ya + 1) yb). lia. }
    unfold Py.toordinal. cbn [Py.year Py.month Py.day].
    destruct (Py.is_leap ya); split; intros; lia.
  - destruct (Z.lt_trichotomy ma mb) as [Hm | [-> | Hm]].
    + pose proof (toordinal_same_year yb ma da mb db Ha Hb Hm).
      split; intros; lia.
    + unfold Py.toordinal. cbn [Py.year Py.month Py.day]. split; intros; lia.
    + pose proof (toordinal_same_year yb mb db ma da Hb Ha Hm).
      split; intros; lia.
  - pose proof (days_before_year_succ yb).
    assert (Py.days_before_year (yb + 1) <= Py.days_before_year ya).
    { destruct (Z.eq_dec (yb + 1) ya) as [<- | Hne]; [lia |].
      pose proof (days_before_year_mono (yb + 1) ya). lia. }
    unfold Py.toordinal. cbn [Py.year Py.month Py.day].
    destruct (Py.is_leap yb); split; intros; lia.
Qed.

(** ** C6: nights between two date texts *)

Lemma calculate_nights_eq_cases (a d : string) :
  calculate_nights a d =
    match Py.strptime a, Py.strptime d with
    | Some arrival, Some departure =>
        Z.max (Py.days_between departure arrival) 1
    | _, _ => 0
    end.
Proof.
  unfold calculate_nights.
  destruct (Py.strptime a), (Py.strptime d); reflexivity.
Qed.

(** C6. For all strings [a] and [d], [calculate_nights a d] is 0 when either
    string fails to parse as [%Y-%b-%d], and otherwise the larger of 1 and
    the number of days from the arrival to the departure. *)
Theorem calculate_nights_spec (a d : string) :
  calculate_nights a d =
    match Py.strptime a, Py.strptime d with
    | Some arrival, Some departure =>
        Z.max (Py.toordinal departure - Py.toordinal arrival) 1
    | _, _ => 0
    end.
Proof.
  unfold calculate_nights, Py.days_between.
  destruct (Py.strptime a), (Py.strptime d); reflexivity.
Qed.

Lemma calculate_nights_nonneg (a d : string) : 0 <= calculate_nights a d.
Proof.
  rewrite calculate_nights_eq_cases.
  destruct (Py.strptime a), (Py.strptime d); lia.
Qed.

(** On the texts of two calendar dates the count is never 0. *)
Lemma calculate_nights_strftime (x y : Py.date) :
  Py.valid_date x = true -> Py.valid_date y = true ->
  calculate_nights (Py.strftime x) (Py.strftime y)
  = Z.max (Py.toordinal y - Py.toordinal x) 1.
Proof.
  intros Hx Hy. unfold calculate_nights.
  now rewrite (strptime_strftime x Hx), (strptime_strftime y Hy).
Qed.

Example calculate_nights_examples :
  calculate_nights "2024-Jan-05" "2024-Jan-12" = 7
  /\ calculate_nights "2024-Jan-05" "2024-Jan-05" = 1
  /\ calculate_nights "2024-Jan-05" "2024-Jan-03" = 1
  /\ calculate_nights "2024-Feb-28" "2024-Mar-01" = 2
  /\ calculate_nights "Not found" "2024-Jan-12" = 0
  /\ calculate_nights "2024-Jan-05" "12/01/2024" = 0.
Proof. repeat split; reflexivity. Qed.

(** ** C1: the nights field of the records the program creates *)

Lemma not_found_unparseable : Py.strptime "Not found" = None.
Proof. reflexivity. Qed.

Lemma extract_booking_nights (P : Portal) (t : string) (item : Item)
  (b : Booking) :
  extract_booking P t item = Some b ->
  number_of_nights b =
    if negb (String.eqb (arrival_date b) "Not found")
       && negb (String.eqb (departure_date b) "Not found")
    then calculate_nights (arrival_date b) (departure_date b)
    else 0.
Proof.
  unfold extract_booking. intros H.
  destruct (customer_name item) as [[fn|]|];
    cbn [mbind option_bind] in H; try discriminate.
  all: destruct (listing_title item) as [[pn|]|];
    cbn [mbind option_bind] in H; try discriminate.
  all: destruct (inquiry_meta item) as [strong_elements|].
  all: destruct (match href_of (btn_info item) with
                 | Some l => Some l
                 | None => href_of (mobile_link item)
                 end) as [l|].
  all: try destruct (extract_guest_and_room_info P l) as [g r].
  all: injection H as <-; reflexivity.
Qed.

(** Scraped records satisfy the invariant: the clamp of [calculate_nights]
    applies whenever both texts parse. *)
Lemma extract_booking_invariant (P : Portal) (t : string) (item : Item)
  (b : Booking) :
  extract_booking P t item = Some b -> nights_invariant b.
Proof.
  intros H. apply extract_booking_nights in H.
  unfold nights_invariant. rewrite H. clear H.
  destruct (String.eqb (arrival_date b) "Not found") eqn:Ea.
  - apply String.eqb_eq in Ea. cbn [negb andb]. split; [lia |].
    intros x y Hx _. rewrite Ea, not_found_unparseable in Hx. discriminate.
  - destruct (String.eqb (departure_date b) "Not found") eqn:Ed.
    + apply String.eqb_eq in Ed. cbn [negb andb]. split; [lia |].
      intros x y _ Hy. rewrite Ed, not_found_unparseable in Hy. discriminate.
    + cbn [negb andb]. split; [apply calculate_nights_nonneg |].
      intros x y Hx Hy. rewrite calculate_nights_eq_cases, Hx, Hy. reflexivity.
Qed.

Lemma extract_bookings_from_list_invariant (P : Portal) (l : list Item)
  (t : string) (b : Booking) :
  b ∈ extract_bookings_from_list P l t -> nights_invariant b.
Proof.
  unfold extract_bookings_from_list. rewrite list_elem_of_omap.
  intros [item [_ H]]. eapply extract_booking_invariant, H.
Qed.

Lemma extract_booking_data_invariant (logged_in : bool) (P : Portal)
  (b : Booking) :
  b ∈ extract_booking_data logged_in P -> nights_invariant b.
Proof.
  unfold extract_booking_data.
  destruct logged_in; cbn [negb]; [| intros H; inversion H].
  destruct (bookings_overview P) as [|status lists]; [intros H; inversion H |].
  destruct (negb (status =? 200)); [intros H; inversion H |].
  rewrite elem_of_app. intros [H | H].
  - destruct (lists !! 0%nat); [| inversion H].
    eapply extract_bookings_from_list_invariant, H.
  - destruct (lists !! 1%nat); [| inversion H].
    eapply extract_bookings_from_list_invariant, H.
Qed.

(** The form stores the plain difference of its two dates. *)
Lemma manual_booking_nights (f : Form) (today : Py.date) :
  number_of_nights (manual_booking f today)
  = Py.toordinal (form_departure_date f) - Py.toordinal (form_arrival_date f).
Proof. reflexivity. Qed.

(** Both texts of a manual record parse, so the invariant holds for it only
    when the departure is after the arrival. *)
Lemma manual_booking_invariant_iff (f : Form) (today : Py.date) :
  Py.valid_date (form_arrival_date f) = true ->
  Py.valid_date (form_departure_date f) = true ->
  nights_invariant (manual_booking f today)
  <-> Py.toordinal (form_arrival_date f) < Py.toordinal (form_departure_date f).
Proof.
  intros Ha Hd. unfold nights_invariant.
  cbn [manual_booking number_of_nights arrival_date departure_date].
  rewrite (strptime_strftime _ Ha), (strptime_strftime _ Hd).
  unfold Py.days_between. split.
  - intros [_ H]. specialize (H _ _ eq_refl eq_refl). lia.
  - intros Hlt. split; [lia |]. intros x y [= <-] [= <-]. lia.
Qed.

(** C1. The invariant [number_of_nights >= 0, and max(departure - arrival, 1)
    when both dates parse] fails for records of the manual form: submitted
    with arrival and departure on 2024-Jan-05 the form stores a record whose
    two dates parse and whose [number_of_nights] is 0 instead of 1, and with
    the departure two days before the arrival it stores -2. *)
Theorem manual_booking_nights_unclamped :
  let b := manual_booking same_day_form (jan 1) in
  let b' := manual_booking backwards_form (jan 1) in
  add_manual_booking_form same_day_form (jan 1) empty_disk
  = Ok (mkDisk {[ bookings_json := Json [b] ]} ∅, Some b)
  /\ Py.strptime (arrival_date b) = Some (jan 5)
  /\ Py.strptime (departure_date b) = Some (jan 5)
  /\ number_of_nights b = 0
  /\ ~ nights_invariant b
  /\ number_of_nights b' = -2
  /\ ~ nights_invariant b'.
Proof.
  cbv zeta. split; [| split; [| split; [| split; [| split; [| split]]]]].
  - vm_compute. reflexivity.
  - reflexivity.
  - reflexivity.
  - reflexivity.
  - intros [_ H].
    specialize (H (jan 5) (jan 5) eq_refl eq_refl). vm_compute in H. discriminate.
  - reflexivity.
  - intros [H _]. vm_compute in H. apply H. reflexivity.
Qed.

(** ** C9: booking statistics *)

Lemma sentinel_not_int (s : string) : is_sentinel s = true -> Py.int s = None.
Proof.
  unfold is_sentinel. rewrite orb_true_iff, !String.eqb_eq.
  intros [-> | ->]; reflexivity.
Qed.

(** The loop adds up exactly the counts that [int] accepts: the test on the
    two sentinels skips nothing that would have parsed. *)
Lemma fold_add_guests (bookings : list Booking) (acc : Z) :
  fold_left add_guests bookings acc = acc + Zsum (parsed_guests bookings).
Proof.
  revert acc. induction bookings as [|b l IH]; intros acc.
  - simpl. lia.
  - cbn [fold_left]. rewrite IH. unfold parsed_guests. cbn [omap list_omap].
    unfold add_guests.
    destruct (negb (String.eqb (number_of_guests b) "Not found")
              && negb (String.eqb (number_of_guests b) "Not available"))
      eqn:E.
    + unfold Zsum.
      destruct (Py.int (number_of_guests b)); cbn [fold_right]; lia.
    + rewrite sentinel_not_int; [lia |].
      unfold is_sentinel.
      destruct (String.eqb (number_of_guests b) "Not found"),
               (String.eqb (number_of_guests b) "Not available");
        try reflexivity; discriminate.
Qed.

(** C9, counterexample. On the empty sequence the function returns before
    showing any metric, so no total is reported for it. *)
Lemma display_booking_stats_empty :
  ~ exists st : Stats,
      display_booking_stats [] = Some st
      /\ total_bookings st = Z.of_nat (length (@nil Booking)).
Proof. intros [st [H _]]. discriminate. Qed.

(** C9 (amended). For every non-empty booking sequence the statistics show
    the length of the sequence, the number of records of type "Current", the
    number of type "Upcoming", and the sum of the guest counts that parse as
    integers, the others being skipped. *)
Theorem display_booking_stats_spec (bookings : list Booking) :
  bookings <> [] ->
  display_booking_stats bookings
  = Some {| total_bookings := Z.of_nat (length bookings);
            current_bookings :=
              Z.of_nat (length (filter (fun b => booking_type b = "Current")
                                  bookings));
            upcoming_bookings :=
              Z.of_nat (length (filter (fun b => booking_type b = "Upcoming")
                                  bookings));
            total_guests := Zsum (parsed_guests bookings) |}.
Proof.
  intros Hne. unfold display_booking_stats.
  destruct bookings as [|b l]; [congruence |].
  rewrite fold_add_guests. reflexivity.
Qed.

(** Guests "2", "Not found", "3" give 5. *)
Lemma display_booking_stats_spec_witness :
  [stay_feb; stay_unknown_guests; stay_jan] <> []
  /\ display_booking_stats [stay_feb; stay_unknown_guests; stay_jan]
     = Some {| total_bookings := 3; current_bookings := 2;
               upcoming_bookings := 1; total_guests := 5 |}.
Proof.
  split; [discriminate |].
  apply (display_booking_stats_spec [stay_feb; stay_unknown_guests; stay_jan]).
  discriminate.
Defined.

(** ** C8: loading the persisted file *)

(** Whatever else the path holds, the load answers with the stored sequence,
    or with the empty one when there is none to read. *)
Lemma load_bookings_from_json_decodable (filename : string) (d : Disk) :
  files d !! filename <> Some NotUtf8 ->
  load_bookings_from_json filename d = Ok (stored d filename).
Proof.
  unfold load_bookings_from_json, stored.
  destruct (files d !! filename) as [[| | |bookings]|]; try reflexivity.
  congruence.
Qed.

Lemma load_bookings_from_json_absent (filename : string) (d : Disk) :
  files d !! filename = None -> load_bookings_from_json filename d = Ok [].
Proof. unfold load_bookings_from_json. now intros ->. Qed.

Lemma load_bookings_from_json_not_json (filename : string) (d : Disk) :
  files d !! filename = Some NotJson ->
  load_bookings_from_json filename d = Ok [].
Proof. unfold load_bookings_from_json. now intros ->. Qed.

Lemma load_bookings_from_json_stored (filename : string) (d : Disk)
  (bookings : list Booking) :
  files d !! filename = Some (Json bookings) ->
  load_bookings_from_json filename d = Ok bookings.
Proof. unfold load_bookings_from_json. now intros ->. Qed.

(** Reading back what was saved. *)
Lemma load_save (bookings : list Booking) (filename : string) (d : Disk) :
  filename ∉ write_denied d ->
  load_bookings_from_json filename (save_bookings_to_json bookings filename d)
  = Ok bookings.
Proof.
  intros Hw. unfold save_bookings_to_json.
  destruct (decide (filename ∈ write_denied d)) as [Hin|_]; [contradiction |].
  apply load_bookings_from_json_stored. cbn [files].
  apply lookup_insert_eq.
Qed.

(** C8. The load does raise past its boundary: on a file whose bytes are not
    UTF-8 the read fails with [UnicodeDecodeError], which the clause
    [except (IOError, json.JSONDecodeError)] does not name. *)
Theorem load_bookings_from_json_raises :
  load_bookings_from_json bookings_json
    (mkDisk {[ bookings_json := NotUtf8 ]} ∅)
  = Raise UnicodeDecodeError.
Proof. vm_compute. reflexivity. Qed.

(** ** C4 and C10: refresh, merge and save *)

Lemma save_bookings_to_json_lookup (bookings : list Booking)
  (filename : string) (d : Disk) :
  filename ∉ write_denied d ->
  files (save_bookings_to_json bookings filename d) !! filename
  = Some (Json bookings).
Proof.
  intros Hw. unfold save_bookings_to_json.
  destruct (decide (filename ∈ write_denied d)) as [Hin|_]; [contradiction |].
  cbn [files]. apply lookup_insert_eq.
Qed.

Lemma refresh_and_merge_ok (tripaneer_bookings : list Booking) (d : Disk) :
  files d !! bookings_json <> Some NotUtf8 ->
  refresh_and_merge tripaneer_bookings d
  = let saved :=
      tripaneer_bookings ++ filter is_manual (stored d bookings_json) in
    Ok (save_bookings_to_json saved bookings_json d, saved).
Proof.
  intros Hr. unfold refresh_and_merge.
  rewrite (load_bookings_from_json_decodable _ _ Hr). reflexivity.
Qed.

(** C4. For every freshly scraped sequence and every file the load can read
    ([bookings.json] missing, not JSON, or holding a stored sequence), on a
    writable path, the refresh writes back exactly the scraped records
    followed by the stored records whose source is "manual", in their order:
    no stored record with another source is carried over, and nothing is
    deduplicated. *)
Theorem refresh_and_merge_spec (tripaneer_bookings : list Booking) (d : Disk) :
  files d !! bookings_json <> Some NotUtf8 ->
  bookings_json ∉ write_denied d ->
  let saved := tripaneer_bookings ++ filter is_manual (stored d bookings_json) in
  exists d' : Disk,
    refresh_and_merge tripaneer_bookings d = Ok (d', saved)
    /\ files d' !! bookings_json = Some (Json saved)
    /\ (forall b : Booking,
          b ∈ saved ->
          b ∈ tripaneer_bookings
          \/ (b ∈ stored d bookings_json /\ source b = Some "manual"))
    /\ length saved
       = (length tripaneer_bookings
          + length (filter is_manual (stored d bookings_json)))%nat.
Proof.
  intros Hr Hw saved. rewrite (refresh_and_merge_ok _ _ Hr). cbv zeta.
  eexists. split; [reflexivity |]. split; [| split].
  - apply save_bookings_to_json_lookup, Hw.
  - intros b. unfold saved. rewrite elem_of_app, list_elem_of_filter.
    unfold is_manual. tauto.
  - unfold saved. apply length_app.
Qed.

(** The file of the specification's example: one scraped record of an
    earlier run and one manual record, replaced by two fresh records. *)
Lemma refresh_and_merge_spec_witness :
  let d := mkDisk {[ bookings_json := Json [stay_unknown_guests; stay_dec] ]} ∅ in
  files d !! bookings_json <> Some NotUtf8
  /\ (bookings_json ∉ write_denied d)
  /\ exists d' : Disk,
       refresh_and_merge [stay_jan; stay_feb] d
       = Ok (d', [stay_jan; stay_feb; stay_dec])
       /\ files d' !! bookings_json = Some (Json [stay_jan; stay_feb; stay_dec]).
Proof.
  cbv zeta.
  assert (H1 : files (mkDisk {[ bookings_json := Json [stay_unknown_guests; stay_dec] ]} ∅)
               !! bookings_json <> Some NotUtf8) by (vm_compute; discriminate).
  assert (H2 : bookings_json
               ∉ write_denied (mkDisk {[ bookings_json := Json [stay_unknown_guests; stay_dec] ]} ∅))
    by apply not_elem_of_empty.
  split; [exact H1 |]. split; [exact H2 |].
  destruct (refresh_and_merge_spec [stay_jan; stay_feb] _ H1 H2)
    as [d' [E [F _]]].
  exists d'. split; [exact E | exact F].
Defined.

(** The extraction comes back empty when the scraper is not logged in, when
    the page fetch raises, and when the portal answers with another status
    than 200. *)
Lemma extract_booking_data_failure (logged_in : bool) (P : Portal) :
  logged_in = false
  \/ bookings_overview P = FetchError
  \/ (exists (status : Z) (lists : list (list Item)),
        bookings_overview P = Response status lists /\ status <> 200) ->
  extract_booking_data logged_in P = [].
Proof.
  unfold extract_booking_data.
  intros [-> | [-> | [status [lists [-> Hs]]]]].
  - reflexivity.
  - now destruct logged_in.
  - destruct logged_in; [| reflexivity]. cbn [negb].
    destruct (Z.eqb_spec status 200); [contradiction | reflexivity].
Qed.

(** C10. When the extraction returns the empty sequence, the refresh still
    writes [bookings.json] (readable by the load, on a writable path): the
    file then holds exactly the manual records it held before, and no stored
    record with another source is left in it. *)
Theorem refresh_and_save_empty_extraction (scraper_logged_in : bool)
  (P : Portal) (d : Disk) :
  extract_booking_data scraper_logged_in P = [] ->
  files d !! bookings_json <> Some NotUtf8 ->
  bookings_json ∉ write_denied d ->
  let kept := filter is_manual (stored d bookings_json) in
  exists d' : Disk,
    refresh_and_save scraper_logged_in P d = Ok (d', kept)
    /\ files d' !! bookings_json = Some (Json kept)
    /\ (forall b : Booking, b ∈ kept -> source b = Some "manual")
    /\ (forall b : Booking, source b <> Some "manual" -> b ∉ kept).
Proof.
  intros He Hr Hw kept. unfold refresh_and_save.
  rewrite He, (refresh_and_merge_ok _ _ Hr). cbv zeta. cbn [app].
  eexists. split; [reflexivity |]. split; [| split].
  - apply save_bookings_to_json_lookup, Hw.
  - intros b. unfold kept. rewrite list_elem_of_filter. unfold is_manual. tauto.
  - intros b Hs. unfold kept. rewrite list_elem_of_filter. unfold is_manual. tauto.
Qed.

(** The portal answers 503 while the file holds one scraped and one manual
    record: only the manual record survives the refresh. *)
Lemma refresh_and_save_empty_extraction_witness :
  let d := mkDisk {[ bookings_json := Json [stay_jan; stay_dec] ]} ∅ in
  extract_booking_data true portal_down = []
  /\ files d !! bookings_json <> Some NotUtf8
  /\ (bookings_json ∉ write_denied d)
  /\ exists d' : Disk,
       refresh_and_save true portal_down d = Ok (d', [stay_dec])
       /\ files d' !! bookings_json = Some (Json [stay_dec]).
Proof.
  cbv zeta.
  assert (H0 : extract_booking_data true portal_down = []) by reflexivity.
  assert (H1 : files (mkDisk {[ bookings_json := Json [stay_jan; stay_dec] ]} ∅)
               !! bookings_json <> Some NotUtf8) by (vm_compute; discriminate).
  assert (H2 : bookings_json
               ∉ write_denied (mkDisk {[ bookings_json := Json [stay_jan; stay_dec] ]} ∅))
    by apply not_elem_of_empty.
  split; [exact H0 |]. split; [exact H1 |]. split; [exact H2 |].
  destruct (refresh_and_save_empty_extraction true portal_down _ H0 H1 H2)
    as [d' [E [F _]]].
  exists d'. split; [exact E | exact F].
Defined.

(** ** Insertion-ordered dictionaries *)

Lemma assoc_update {V : Type} (k k' : string) (dflt : V) (f : V -> V)
  (d : list (string * V)) :
  assoc k' (update k dflt f d)
  = if String.eqb k' k then Some (f (default dflt (assoc k d))) else assoc k' d.
Proof.
  induction d as [|[k0 v] d IH]; cbn [update assoc].
  - destruct (String.eqb k' k) eqn:E; [| reflexivity].
    reflexivity.
  - destruct (String.eqb k k0) eqn:E0; cbn [assoc default].
    + apply String.eqb_eq in E0. subst k0.
      destruct (String.eqb k' k); reflexivity.
    + destruct (String.eqb k' k0) eqn:E1.
      * apply String.eqb_eq in E1. subst k0.
        rewrite String.eqb_sym, E0. reflexivity.
      * exact IH.
Qed.

Lemma group_by_snoc {A : Type} (key : A -> string) (l : list A) (x : A) :
  group_by key (l ++ [x]) = append_to (key x) x (group_by key l).
Proof. unfold group_by. now rewrite fold_left_app. Qed.

(** The group of key [k] is the sub-sequence of the elements with that key,
    in their order. *)
Lemma assoc_group_by {A : Type} (key : A -> string) (l : list A) (k : string) :
  assoc k (group_by key l) = nonempty (filter (fun x => key x = k) l).
Proof.
  induction l as [|x l IH] using rev_ind; [reflexivity |].
  rewrite group_by_snoc, filter_app. unfold append_to.
  rewrite assoc_update.
  destruct (String.eqb k (key x)) eqn:E.
  - apply String.eqb_eq in E. subst k. rewrite IH.
    rewrite (filter_cons_True _ x []) by reflexivity. rewrite filter_nil.
    destruct (filter (fun x0 => key x0 = key x) l); reflexivity.
  - apply String.eqb_neq in E.
    rewrite (filter_cons_False _ x []) by congruence.
    rewrite filter_nil, app_nil_r. exact IH.
Qed.

Lemma assoc_map_values {V W : Type} (g : string -> V -> W) (k : string)
  (d : list (string * V)) :
  assoc k (map (fun '(k', v) => (k', g k' v)) d) = g k <$> assoc k d.
Proof.
  induction d as [|[k0 v] d IH]; [reflexivity |].
  cbn [map assoc]. destruct (String.eqb k k0) eqn:E; [| exact IH].
  apply String.eqb_eq in E. now subst k0.
Qed.

(** ** C5: current guests by hostel and room *)

Lemma room_key_not_found (b : Booking) :
  room_type b = "Not found" -> room_key b = "Unknown Room".
Proof. unfold room_key. now intros ->. Qed.

Lemma room_key_other (b : Booking) :
  room_type b <> "Not found" -> room_key b = room_type b.
Proof.
  unfold room_key. intros H.
  destruct (String.eqb_spec (room_type b) "Not found"); [contradiction | reflexivity].
Qed.

(** Under hostel [h] and room key [r] the view lists the bookings of type
    "Current" with that hostel and that key, in their order, and no others. *)
Lemma display_current_guests_by_hostel_groups (bookings : list Booking)
  (h r : string) :
  assoc h (display_current_guests_by_hostel bookings) ≫= assoc r
  = nonempty
      (filter (fun b => room_key b = r)
         (filter (fun b => hostel b = h)
            (filter (fun b => booking_type b = "Current") bookings))).
Proof.
  unfold display_current_guests_by_hostel.
  set (current := filter (fun b => booking_type b = "Current") bookings).
  destruct current as [|c current'] eqn:Ec; [reflexivity |].
  rewrite <- Ec. clear Ec c current'.
  rewrite (assoc_map_values (fun _ l => group_by room_key l)).
  rewrite assoc_group_by.
  destruct (filter (fun b => hostel b = h) current) as [|x l] eqn:E.
  - reflexivity.
  - cbn [nonempty fmap option_fmap option_map mbind option_bind].
    apply assoc_group_by.
Qed.

(** C5. A current booking whose room type is the sentinel "Not available",
    as the scraper leaves it for an item without a conversation link, is
    not placed under "Unknown Room": its group keeps the key
    "Not available". *)
Theorem not_available_room_not_normalized :
  exists b : Booking,
    extract_booking_data true portal_one_current = [b]
    /\ booking_type b = "Current"
    /\ room_type b = "Not available"
    /\ display_current_guests_by_hostel [b]
       = [("Tamraght", [("Not available", [b])])]
    /\ assoc "Tamraght" (display_current_guests_by_hostel [b])
         ≫= assoc "Unknown Room" = None.
Proof. eexists. repeat split; reflexivity. Qed.

(** ** C2: the selection of the occupancy report *)

Lemma truthy_nonempty (s : string) : Py.truthy s = true <-> s <> EmptyString.
Proof. destruct s; simpl; split; congruence. Qed.

Lemma in_period_selected (selected_hostel : string) (start end_ : Py.date)
  (b : Booking) :
  hostel b <> EmptyString ->
  in_period selected_hostel start end_ b = true
  <-> selected selected_hostel start end_ b.
Proof.
  intros Hh. apply truthy_nonempty in Hh.
  unfold in_period, selected, overlaps, hostel_matches, numeric_guests, parse_date.
  rewrite Hh. cbn [andb].
  destruct (Py.strptime (arrival_date b)) as [a|];
    [destruct (Py.strptime (departure_date b)) as [d|] |].
  - destruct (Py.truthy (number_of_guests b)) eqn:Et; cbn [negb orb].
    + destruct (is_sentinel (number_of_guests b)) eqn:Es.
      * split; [discriminate | intros (_ & _ & Hs & _); discriminate].
      * destruct (Py.int (number_of_guests b)) as [n|].
        -- rewrite !andb_true_iff, orb_true_iff, !String.eqb_eq. split.
           ++ intros [[Ha Hd] Hm]. split; [| split].
              ** destruct Hm as [-> | ->]; auto.
              ** exists a, d. auto.
              ** split; [reflexivity | eauto].
           ++ intros (Hm & (a' & d' & [= <-] & [= <-] & Ha & Hd) & _).
              split; [auto |]. destruct Hm as [-> | ->]; auto.
        -- split; [discriminate | intros (_ & _ & _ & n & Hn); discriminate].
    + split; [discriminate |]. intros (_ & _ & _ & n & Hn).
      destruct (number_of_guests b); [discriminate Hn | discriminate Et].
  - split; [discriminate | intros (_ & (a' & d' & _ & Hd & _) & _); discriminate].
  - split; [discriminate | intros (_ & (a' & d' & Ha & _) & _); discriminate].
Qed.

Lemma in_period_numeric (selected_hostel : string) (start end_ : Py.date)
  (b : Booking) :
  in_period selected_hostel start end_ b = true ->
  is_Some (Py.int (number_of_guests b)).
Proof.
  unfold in_period.
  destruct (parse_date (arrival_date b)); [| discriminate].
  destruct (parse_date (departure_date b)); [| discriminate].
  destruct (negb _ || _); [discriminate |].
  destruct (Py.int (number_of_guests b)); [eauto | discriminate].
Qed.

(** The second loop parses again the counts that the first loop accepted:
    it cannot raise. *)
Lemma occupy_total (l : list Booking) (acc : list (string * Occupancy)) :
  Forall (fun b => is_Some (Py.int (number_of_guests b))) l ->
  is_Some (fold_left occupy l (Some acc)).
Proof.
  intros H. revert acc. induction H as [|b l [n Hn] _ IH]; intros acc.
  - cbn [fold_left]. eauto.
  - cbn [fold_left]. unfold occupy at 2. cbn [mbind option_bind].
    rewrite Hn. cbn [mbind option_bind]. apply IH.
Qed.

Lemma display_occupancy_by_hostel_no_crash (bookings : list Booking)
  (selected_hostel : string) (start end_ : Py.date) :
  display_occupancy_by_hostel bookings selected_hostel start end_ <> Crash.
Proof.
  unfold display_occupancy_by_hostel.
  destruct (negb (Py.date_le start end_)); [discriminate |].
  pose proof (occupy_total
                (filtered_bookings selected_hostel start end_ bookings) []) as H.
  destruct (filtered_bookings selected_hostel start end_ bookings) as [|b l] eqn:E;
    [discriminate |].
  destruct H as [o Ho].
  - rewrite <- E. apply Forall_forall. intros x Hx.
    unfold filtered_bookings in Hx. apply list_elem_of_filter in Hx as [Hx _].
    eapply in_period_numeric, Hx.
  - rewrite Ho. discriminate.
Qed.

(** C2. With [start <= end], and for a booking whose hostel field is filled
    in (it is one of the two hostel names in the data model), the booking is
    selected by the occupancy report exactly when it is one of the bookings,
    its hostel matches the filter ("All" matches every hostel), both of its
    dates parse with arrival <= end and departure >= start, and its guest
    count is no sentinel and parses as an integer; a booking with an
    unparseable date, a sentinel or a non-integer guest count is left out. *)
Theorem occupancy_selection (bookings : list Booking) (selected_hostel : string)
  (start end_ : Py.date) (b : Booking) :
  Py.date_le start end_ = true ->
  hostel b <> EmptyString ->
  display_occupancy_by_hostel bookings selected_hostel start end_
    <> EndBeforeStart
  /\ (b ∈ filtered_bookings selected_hostel start end_ bookings
      <-> b ∈ bookings /\ selected selected_hostel start end_ b)
  /\ (Py.strptime (arrival_date b) = None
      \/ Py.strptime (departure_date b) = None
      \/ is_sentinel (number_of_guests b) = true
      \/ Py.int (number_of_guests b) = None ->
      b ∉ filtered_bookings selected_hostel start end_ bookings).
Proof.
  intros Hse Hh.
  assert (Hiff : b ∈ filtered_bookings selected_hostel start end_ bookings
                 <-> b ∈ bookings /\ selected selected_hostel start end_ b).
  { unfold filtered_bookings. rewrite list_elem_of_filter.
    rewrite (in_period_selected _ _ _ _ Hh). tauto. }
  split; [| split].
  - unfold display_occupancy_by_hostel. rewrite Hse. cbn [negb].
    destruct (filtered_bookings selected_hostel start end_ bookings);
      [discriminate |].
    destruct (fold_left occupy _ _); discriminate.
  - exact Hiff.
  - intros Hbad Hin. apply Hiff in Hin as [_ (_ & Ho & Hs & n & Hn)].
    destruct Ho as (a & d & Ha & Hd & _). unfold parse_date in *.
    destruct Hbad as [H | [H | [H | H]]]; congruence.
Qed.

(** The period 2024-01-01 .. 2024-01-31 with filter "All": the stay from
    2024-Jan-15 to 2024-Feb-02 is selected. *)
Lemma occupancy_selection_witness :
  Py.date_le (jan 1) (jan 31) = true
  /\ hostel stay_feb <> EmptyString
  /\ (stay_feb ∈ filtered_bookings "All" (jan 1) (jan 31)
                   [stay_feb; stay_dec; stay_unknown_guests]
      <-> stay_feb ∈ [stay_feb; stay_dec; stay_unknown_guests]
          /\ selected "All" (jan 1) (jan 31) stay_feb).
Proof.
  assert (H1 : Py.date_le (jan 1) (jan 31) = true) by reflexivity.
  assert (H2 : hostel stay_feb <> EmptyString) by discriminate.
  split; [exact H1 |]. split; [exact H2 |].
  exact (proj1 (proj2 (occupancy_selection
                         [stay_feb; stay_dec; stay_unknown_guests] "All"
                         (jan 1) (jan 31) stay_feb H1 H2))).
Defined.

Example filtered_bookings_example :
  filtered_bookings "All" (jan 1) (jan 31)
    [stay_feb; stay_dec; stay_unknown_guests]
  = [stay_feb].
Proof. vm_compute. reflexivity. Qed.

(** A booking without a hostel is skipped by the guard on missing data,
    whatever the filter. *)
Lemma in_period_no_hostel (selected_hostel : string) (start end_ : Py.date)
  (b : Booking) :
  hostel b = EmptyString -> in_period selected_hostel start end_ b = false.
Proof.
  unfold in_period. intros ->.
  destruct (parse_date (arrival_date b)), (parse_date (departure_date b));
    reflexivity.
Qed.

(** ** C3: the order of the departure buckets *)

Lemma ltb_false_leb (x y : string) :
  String.ltb x y = false -> String.leb y x = true.
Proof.
  unfold String.ltb, String.leb. rewrite (String.compare_antisym y x).
  destruct (String.compare x y); cbn; congruence.
Qed.

Lemma ltb_true_leb (x y : string) :
  String.ltb x y = true -> String.leb x y = true.
Proof.
  unfold String.ltb, String.leb.
  destruct (String.compare x y); congruence.
Qed.

Lemma insert_sorted_perm {V : Type} (x : string * V) (l : list (string * V)) :
  insert_sorted x l ≡ₚ x :: l.
Proof.
  induction l as [|y l IH]; cbn [insert_sorted]; [reflexivity |].
  destruct (String.ltb (fst x) (fst y)); [reflexivity |].
  rewrite IH. apply Permutation_swap.
Qed.

Lemma insert_sorted_hd {V : Type} (x y : string * V) (l : list (string * V)) :
  key_le y x -> HdRel key_le y l -> HdRel key_le y (insert_sorted x l).
Proof.
  intros Hyx Hl. destruct l as [|z l]; cbn [insert_sorted].
  - constructor. exact Hyx.
  - destruct (String.ltb (fst x) (fst z)); constructor.
    + exact Hyx.
    + now inversion Hl.
Qed.

Lemma insert_sorted_Sorted {V : Type} (x : string * V) (l : list (string * V)) :
  Sorted key_le l -> Sorted key_le (insert_sorted x l).
Proof.
  induction 1 as [|y l Hs IH Hhd]; cbn [insert_sorted].
  - repeat constructor.
  - destruct (String.ltb (fst x) (fst y)) eqn:E.
    + constructor; [constructor; assumption |].
      constructor. apply ltb_true_leb, E.
    + constructor; [exact IH |].
      apply insert_sorted_hd; [| exact Hhd].
      apply ltb_false_leb, E.
Qed.

Lemma sorted_from {V : Type} (l acc : list (string * V)) :
  Sorted key_le acc ->
  Sorted key_le (fold_left (fun a x => insert_sorted x a) l acc)
  /\ fold_left (fun a x => insert_sorted x a) l acc ≡ₚ acc ++ l.
Proof.
  revert acc. induction l as [|x l IH]; intros acc Hacc; cbn [fold_left].
  - rewrite app_nil_r. split; [exact Hacc | reflexivity].
  - destruct (IH (insert_sorted x acc) (insert_sorted_Sorted x acc Hacc))
      as [Hs Hp].
    split; [exact Hs |].
    rewrite Hp, insert_sorted_perm. apply Permutation_middle.
Qed.

(** What [sorted] does: the same items, with their keys in ascending order
    as strings. *)
Lemma sorted_spec {V : Type} (l : list (string * V)) :
  Sorted key_le (sorted l) /\ sorted l ≡ₚ l.
Proof. unfold sorted. apply (sorted_from l []). constructor. Qed.

(** In every section of the report the bucket keys ascend as strings. *)
Lemma display_occupancy_by_hostel_sorted (bookings : list Booking)
  (selected_hostel : string) (start end_ : Py.date)
  (hostels : list (string * (Z * list (string * list Booking))))
  (h : string) (g : Z) (buckets : list (string * list Booking)) :
  display_occupancy_by_hostel bookings selected_hostel start end_
  = Sections hostels ->
  (h, (g, buckets)) ∈ hostels ->
  Sorted key_le buckets.
Proof.
  unfold display_occupancy_by_hostel.
  destruct (negb (Py.date_le start end_)); [discriminate |].
  destruct (filtered_bookings selected_hostel start end_ bookings);
    [discriminate |].
  destruct (fold_left occupy _ _) as [occ|]; [| discriminate].
  intros [= <-]. change (@map) with (@fmap list _). rewrite list_elem_of_fmap.
  intros [[h' data] [[= -> -> ->] _]]. apply sorted_spec.
Qed.

Lemma update_keys {V : Type} (k k' : string) (dflt : V) (f : V -> V)
  (d : list (string * V)) :
  k' ∈ (update k dflt f d).*1 <-> k' = k \/ k' ∈ d.*1.
Proof.
  induction d as [|[k0 v] d IH]; cbn [update].
  - cbn. rewrite elem_of_cons, elem_of_nil. tauto.
  - destruct (String.eqb_spec k k0) as [-> | Hne]; cbn [fmap list_fmap fst].
    + rewrite !elem_of_cons. tauto.
    + rewrite !elem_of_cons. change (list_fmap _ _ fst ?l) with (l.*1).
      rewrite IH. tauto.
Qed.

Lemma update_NoDup {V : Type} (k : string) (dflt : V) (f : V -> V)
  (d : list (string * V)) :
  NoDup d.*1 -> NoDup (update k dflt f d).*1.
Proof.
  induction d as [|[k0 v] d IH]; cbn [update]; intros Hd.
  - cbn. apply NoDup_singleton.
  - destruct (String.eqb_spec k k0) as [-> | Hne]; [exact Hd |].
    cbn [fmap list_fmap fst] in *. change (list_fmap _ _ fst ?l) with (l.*1) in *.
    apply NoDup_cons in Hd as [Hk0 Hd]. apply NoDup_cons. split; [| auto].
    rewrite update_keys. intros [-> | H]; [congruence | contradiction].
Qed.

Lemma update_Forall {V : Type} (P : V -> Prop) (k : string) (dflt : V)
  (f : V -> V) (d : list (string * V)) :
  P (f dflt) -> (forall v : V, P v -> P (f v)) ->
  Forall (fun kv => P (snd kv)) d ->
  Forall (fun kv => P (snd kv)) (update k dflt f d).
Proof.
  intros Hd Hf. induction 1 as [|[k0 v] d Hv Hall IH]; cbn [update].
  - repeat constructor. exact Hd.
  - destruct (String.eqb k k0); constructor; auto. cbn. apply Hf, Hv.
Qed.

Lemma group_by_NoDup {A : Type} (key : A -> string) (l : list A) :
  NoDup (group_by key l).*1.
Proof.
  induction l as [|x l IH] using rev_ind.
  - apply NoDup_nil_2.
  - rewrite group_by_snoc. apply update_NoDup, IH.
Qed.

Lemma occupy_departures_NoDup (l : list Booking)
  (acc occ : list (string * Occupancy)) :
  Forall (fun kv => NoDup (departures (snd kv)).*1) acc ->
  fold_left occupy l (Some acc) = Some occ ->
  Forall (fun kv => NoDup (departures (snd kv)).*1) occ.
Proof.
  revert acc. induction l as [|b l IH]; intros acc Hacc; cbn [fold_left].
  - now intros [= <-].
  - unfold occupy at 2. cbn [mbind option_bind].
    destruct (Py.int (number_of_guests b)) as [n|]; cbn [mbind option_bind].
    + apply IH.
      apply (update_Forall (fun o => NoDup (departures o).*1));
        [| | exact Hacc]; cbn [departures].
      * apply NoDup_singleton.
      * intros o Ho. apply update_NoDup, Ho.
    + clear. intros H. exfalso. induction l as [|b' l IH]; [discriminate |].
      apply IH. exact H.
Qed.

(** The departure dates that label the buckets of a section are distinct:
    [sorted] never has to compare two buckets with the same key. *)
Lemma display_occupancy_by_hostel_distinct (bookings : list Booking)
  (selected_hostel : string) (start end_ : Py.date)
  (hostels : list (string * (Z * list (string * list Booking))))
  (h : string) (g : Z) (buckets : list (string * list Booking)) :
  display_occupancy_by_hostel bookings selected_hostel start end_
  = Sections hostels ->
  (h, (g, buckets)) ∈ hostels ->
  NoDup buckets.*1.
Proof.
  unfold display_occupancy_by_hostel.
  destruct (negb (Py.date_le start end_)); [discriminate |].
  destruct (filtered_bookings selected_hostel start end_ bookings) as [|b l];
    [discriminate |].
  destruct (fold_left occupy (b :: l) (Some [])) as [occ|] eqn:E;
    [| discriminate].
  apply occupy_departures_NoDup in E; [| constructor].
  intros [= <-]. change (@map) with (@fmap list _). rewrite list_elem_of_fmap.
  intros [[h' data] [[= -> -> ->] Hin]].
  rewrite Forall_forall in E. specialize (E _ Hin). cbn [snd] in E.
  destruct (sorted_spec (departures data)) as [_ Hp].
  now rewrite Hp.
Qed.

(** C3. The buckets are not in the order of their dates: with a departure
    on 2024-Jan-20 and one on 2024-Feb-02 in the same hostel, the report
    shows the bucket of 2024-Feb-02 first, because the keys are sorted as
    strings and "2024-F" comes before "2024-J". *)
Theorem occupancy_buckets_not_chronological :
  display_occupancy_by_hostel [stay_jan; stay_feb] "All" (jan 1) (jan 31)
  = Sections
      [("Tamraght",
        (5, [("2024-Feb-02", [stay_feb]); ("2024-Jan-20", [stay_jan])]))]
  /\ Py.toordinal (jan 20) < Py.toordinal (Py.mkdate 2024 2 2)
  /\ ~ chronological ["2024-Feb-02"; "2024-Jan-20"].
Proof.
  split; [vm_compute; reflexivity |]. split; [reflexivity |].
  intros H.
  specialize (H 1%nat 0%nat "2024-Jan-20" "2024-Feb-02"
                (jan 20) (Py.mkdate 2024 2 2)
                eq_refl eq_refl eq_refl eq_refl eq_refl).
  lia.
Qed.

(** * Further properties of the program *)

(** ** Persistence *)



(** ** Scraping *)

Lemma extract_booking_fields (P : Portal) (t : string) (item : Item)
  (b : Booking) :
  extract_booking P t item = Some b ->
  hostel b = determine_hostel (package_name b)
  /\ booking_type b = Py.capitalize t
  /\ source b = None
  /\ (conversation_link b = None ->
      number_of_guests b = "Not available" /\ room_type b = "Not available").
Proof.
  unfold extract_booking. intros H.
  destruct (customer_name item) as [[fn|]|];
    cbn [mbind option_bind] in H; try discriminate.
  all: destruct (listing_title item) as [[pn|]|];
    cbn [mbind option_bind] in H; try discriminate.
  all: destruct (inquiry_meta item) as [strong_elements|].
  all: destruct (match href_of (btn_info item) with
                 | Some l => Some l
                 | None => href_of (mobile_link item)
                 end) as [l|].
  all: try destruct (extract_guest_and_room_info P l) as [g r].
  all: injection H as <-; cbn; repeat split; auto; discriminate.
Qed.

Lemma extract_booking_none (P : Portal) (t : string) (item : Item) :
  extract_booking P t item = None
  <-> customer_name item = Some None \/ listing_title item = Some None.
Proof.
  unfold extract_booking.
  destruct (customer_name item) as [[fn|]|];
    cbn [mbind option_bind].
  all: destruct (listing_title item) as [[pn|]|];
    cbn [mbind option_bind].
  all: try (split; [discriminate | intros [H | H]; discriminate]).
  all: try (split; auto; fail).
  all: destruct (inquiry_meta item) as [strong_elements|].
  all: destruct (match href_of (btn_info item) with
                 | Some l => Some l
                 | None => href_of (mobile_link item)
                 end) as [l|].
  all: try destruct (extract_guest_and_room_info P l) as [g r].
  all: split; [discriminate | intros [H | H]; discriminate].
Qed.

(** X2. An item whose name or title block lacks its inner element is
    skipped and the rest of the list is extracted as without it; any other
    item, even one with no block at all, gives exactly one record at its
    place. *)
Theorem extract_bookings_from_list_skips (P : Portal) (t : string)
  (before after : list Item) (item : Item) :
  (customer_name item = Some None \/ listing_title item = Some None ->
   extract_bookings_from_list P (before ++ item :: after) t
   = extract_bookings_from_list P before t
     ++ extract_bookings_from_list P after t)
  /\ (customer_name item <> Some None /\ listing_title item <> Some None ->
      exists b : Booking,
        extract_booking P t item = Some b
        /\ extract_bookings_from_list P (before ++ item :: after) t
           = extract_bookings_from_list P before t
             ++ b :: extract_bookings_from_list P after t).
Proof.
  unfold extract_bookings_from_list. rewrite omap_app. cbn [omap list_omap].
  split.
  - intros H. apply (proj2 (extract_booking_none P t item)) in H. now rewrite H.
  - intros [H1 H2]. destruct (extract_booking P t item) as [b|] eqn:E.
    + exists b. split; reflexivity.
    + apply (proj1 (extract_booking_none P t item)) in E. tauto.
Qed.

Lemma extract_bookings_from_list_skips_witness :
  (customer_name item_no_link <> Some None
   /\ listing_title item_no_link <> Some None)
  /\ exists b : Booking,
       extract_booking portal_one_current "current" item_no_link = Some b
       /\ extract_bookings_from_list portal_one_current
            ([] ++ item_no_link :: []) "current"
          = extract_bookings_from_list portal_one_current [] "current"
            ++ b :: extract_bookings_from_list portal_one_current [] "current".
Proof.
  assert (H : customer_name item_no_link <> Some None
              /\ listing_title item_no_link <> Some None)
    by (split; discriminate).
  split; [exact H |].
  exact (proj2 (extract_bookings_from_list_skips portal_one_current "current"
                  [] [] item_no_link) H).
Defined.

(** X3. Every record of a scrape carries one of the two hostel names,
    derived from its package name, the type "Current" or "Upcoming", no
    source, and the sentinel "Not available" for guests and room when it
    has no conversation link. *)
Theorem extract_booking_data_fields (logged_in : bool) (P : Portal)
  (b : Booking) :
  b ∈ extract_booking_data logged_in P ->
  hostel b = determine_hostel (package_name b)
  /\ (hostel b = "Taghazout" \/ hostel b = "Tamraght")
  /\ (booking_type b = "Current" \/ booking_type b = "Upcoming")
  /\ source b = None
  /\ (conversation_link b = None ->
      number_of_guests b = "Not available" /\ room_type b = "Not available").
Proof.
  unfold extract_booking_data.
  destruct logged_in; cbn [negb]; [| intros H; inversion H].
  destruct (bookings_overview P) as [|status lists]; [intros H; inversion H |].
  destruct (negb (status =? 200)); [intros H; inversion H |].
  assert (Hh : forall p, determine_hostel p = "Taghazout"
                         \/ determine_hostel p = "Tamraght").
  { intros p. unfold determine_hostel. destruct (_ && _); auto. }
  rewrite elem_of_app. unfold extract_bookings_from_list.
  intros [H | H].
  - destruct (lists !! 0%nat); [| inversion H].
    apply list_elem_of_omap in H as [item [_ H]].
    apply extract_booking_fields in H as (H1 & H2 & H3 & H4).
    split; [exact H1 |]. split; [rewrite H1; apply Hh |].
    split; [left; exact H2 |]. split; [exact H3 | exact H4].
  - destruct (lists !! 1%nat); [| inversion H].
    apply list_elem_of_omap in H as [item [_ H]].
    apply extract_booking_fields in H as (H1 & H2 & H3 & H4).
    split; [exact H1 |]. split; [rewrite H1; apply Hh |].
    split; [right; exact H2 |]. split; [exact H3 | exact H4].
Qed.

Lemma extract_booking_data_fields_witness :
  scraped_lina ∈ extract_booking_data true portal_one_current
  /\ hostel scraped_lina = determine_hostel (package_name scraped_lina)
  /\ (booking_type scraped_lina = "Current"
      \/ booking_type scraped_lina = "Upcoming")
  /\ source scraped_lina = None.
Proof.
  assert (Hin : scraped_lina ∈ extract_booking_data true portal_one_current)
    by apply list_elem_of_here.
  split; [exact Hin |].
  destruct (extract_booking_data_fields true portal_one_current _ Hin)
    as (Hh & _ & Ht & Hs & _).
  split; [exact Hh |]. split; [exact Ht | exact Hs].
Defined.

(** X4. Every record of a scrape has a number of nights that is at least 0,
    and the larger of 1 and the day difference when both of its dates
    parse. *)
Theorem scraped_nights_invariant (logged_in : bool) (P : Portal) (b : Booking) :
  b ∈ extract_booking_data logged_in P -> nights_invariant b.
Proof.
  unfold extract_booking_data.
  destruct logged_in; cbn [negb]; [| intros H; inversion H].
  destruct (bookings_overview P) as [|status lists]; [intros H; inversion H |].
  destruct (negb (status =? 200)); [intros H; inversion H |].
  unfold extract_bookings_from_list. rewrite elem_of_app.
  intros [H | H].
  - destruct (lists !! 0%nat); [| inversion H].
    apply list_elem_of_omap in H as [item [_ H]].
    eapply extract_booking_invariant, H.
  - destruct (lists !! 1%nat); [| inversion H].
    apply list_elem_of_omap in H as [item [_ H]].
    eapply extract_booking_invariant, H.
Qed.

Lemma scraped_nights_invariant_witness :
  scraped_lina ∈ extract_booking_data true portal_one_current
  /\ nights_invariant scraped_lina.
Proof.
  assert (Hin : scraped_lina ∈ extract_booking_data true portal_one_current)
    by apply list_elem_of_here.
  split; [exact Hin |].
  exact (scraped_nights_invariant true portal_one_current _ Hin).
Defined.

(** ** Refresh and manual entry together *)

Lemma filter_is_manual_scraped (logged_in : bool) (P : Portal) :
  filter is_manual (extract_booking_data logged_in P) = [].
Proof.
  apply elem_of_nil_inv. intros b Hb.
  apply list_elem_of_filter in Hb as [Hm Hb].
  apply extract_booking_data_fields in Hb as (_ & _ & _ & Hs & _).
  unfold is_manual in Hm. congruence.
Qed.

Lemma filter_is_manual_idemp (l : list Booking) :
  filter is_manual (filter is_manual l) = filter is_manual l.
Proof.
  induction l as [|b l IH]; [reflexivity |].
  destruct (decide (is_manual b)) as [Hb | Hb].
  - rewrite (filter_cons_True is_manual b l Hb).
    rewrite (filter_cons_True is_manual b _ Hb). now rewrite IH.
  - now rewrite (filter_cons_False is_manual b l Hb).
Qed.

Lemma stored_after_save (bookings : list Booking) (d : Disk) :
  bookings_json ∉ write_denied d ->
  stored (save_bookings_to_json bookings bookings_json d) bookings_json
  = bookings
  /\ files (save_bookings_to_json bookings bookings_json d) !! bookings_json
     <> Some NotUtf8
  /\ (bookings_json
      ∉ write_denied (save_bookings_to_json bookings bookings_json d)).
Proof.
  intros Hw. unfold stored.
  rewrite (save_bookings_to_json_lookup _ _ _ Hw).
  split; [reflexivity |]. split; [discriminate |].
  unfold save_bookings_to_json.
  destruct (decide (bookings_json ∈ write_denied d)); [contradiction | exact Hw].
Qed.

(** X5. A second refresh replaces the records of the first one: after two
    refreshes the file holds the records of the second scrape followed by
    the manual records the file held at the start, each once. *)
Theorem refresh_twice (flag1 flag2 : bool) (P1 P2 : Portal) (d : Disk) :
  files d !! bookings_json <> Some NotUtf8 ->
  bookings_json ∉ write_denied d ->
  exists (d1 d2 : Disk) (first : list Booking),
    refresh_and_save flag1 P1 d = Ok (d1, first)
    /\ refresh_and_save flag2 P2 d1
       = Ok (d2, extract_booking_data flag2 P2
                 ++ filter is_manual (stored d bookings_json))
    /\ files d2 !! bookings_json
       = Some (Json (extract_booking_data flag2 P2
                     ++ filter is_manual (stored d bookings_json))).
Proof.
  intros Hr Hw. unfold refresh_and_save.
  rewrite (refresh_and_merge_ok _ _ Hr). cbv zeta.
  set (first := extract_booking_data flag1 P1
                ++ filter is_manual (stored d bookings_json)).
  destruct (stored_after_save first d Hw) as (Hs & Hr1 & Hw1).
  eexists _, _, first. split; [reflexivity |].
  rewrite (refresh_and_merge_ok _ _ Hr1). cbv zeta. rewrite Hs.
  unfold first at 1 3. rewrite !filter_app, filter_is_manual_scraped,
    filter_is_manual_idemp. cbn [app].
  split; [reflexivity |].
  apply save_bookings_to_json_lookup, Hw1.
Qed.

Lemma refresh_twice_witness :
  let d := mkDisk {[ bookings_json := Json [stay_jan; stay_dec] ]} ∅ in
  files d !! bookings_json <> Some NotUtf8
  /\ (bookings_json ∉ write_denied d)
  /\ exists (d1 d2 : Disk) (first : list Booking),
       refresh_and_save true portal_one_current d = Ok (d1, first)
       /\ refresh_and_save true portal_down d1 = Ok (d2, [stay_dec])
       /\ files d2 !! bookings_json = Some (Json [stay_dec]).
Proof.
  cbv zeta.
  assert (H1 : files (mkDisk {[ bookings_json := Json [stay_jan; stay_dec] ]} ∅)
               !! bookings_json <> Some NotUtf8) by (vm_compute; discriminate).
  assert (H2 : bookings_json
               ∉ write_denied (mkDisk {[ bookings_json := Json [stay_jan; stay_dec] ]} ∅))
    by apply not_elem_of_empty.
  split; [exact H1 |]. split; [exact H2 |].
  exact (refresh_twice true true portal_one_current portal_down _ H1 H2).
Defined.

(** X6. A submitted form with its required fields filled in appends its
    record to what the load returned and writes that back: the file then
    holds the stored records followed by the new one, and only the new one
    when the file was missing, unreadable or not JSON. *)
Theorem add_manual_booking_form_appends (f : Form) (today : Py.date) (d : Disk) :
  form_full_name f <> EmptyString ->
  form_room_type f <> EmptyString ->
  files d !! bookings_json <> Some NotUtf8 ->
  bookings_json ∉ write_denied d ->
  exists d' : Disk,
    add_manual_booking_form f today d = Ok (d', Some (manual_booking f today))
    /\ files d' !! bookings_json
       = Some (Json (stored d bookings_json ++ [manual_booking f today]))
    /\ load_bookings_from_json bookings_json d'
       = Ok (stored d bookings_json ++ [manual_booking f today]).
Proof.
  intros Hn Hroom Hr Hw. unfold add_manual_booking_form.
  apply truthy_nonempty in Hn, Hroom. rewrite Hn, Hroom. cbn [andb negb].
  rewrite (load_bookings_from_json_decodable _ _ Hr).
  cbn [mbind result_bind].
  eexists. split; [reflexivity |]. split.
  - apply save_bookings_to_json_lookup, Hw.
  - apply load_save, Hw.
Qed.

Lemma add_manual_booking_form_appends_witness :
  let d := mkDisk {[ bookings_json := Json [stay_jan] ]} ∅ in
  form_full_name same_day_form <> EmptyString
  /\ form_room_type same_day_form <> EmptyString
  /\ files d !! bookings_json <> Some NotUtf8
  /\ (bookings_json ∉ write_denied d)
  /\ exists d' : Disk,
       add_manual_booking_form same_day_form (jan 1) d
       = Ok (d', Some (manual_booking same_day_form (jan 1)))
       /\ files d' !! bookings_json
          = Some (Json [stay_jan; manual_booking same_day_form (jan 1)]).
Proof.
  cbv zeta.
  assert (H1 : form_full_name same_day_form <> EmptyString) by discriminate.
  assert (H2 : form_room_type same_day_form <> EmptyString) by discriminate.
  assert (H3 : files (mkDisk {[ bookings_json := Json [stay_jan] ]} ∅)
               !! bookings_json <> Some NotUtf8) by (vm_compute; discriminate).
  assert (H4 : bookings_json
               ∉ write_denied (mkDisk {[ bookings_json := Json [stay_jan] ]} ∅))
    by apply not_elem_of_empty.
  split; [exact H1 |]. split; [exact H2 |]. split; [exact H3 |].
  split; [exact H4 |].
  destruct (add_manual_booking_form_appends same_day_form (jan 1) _ H1 H2 H3 H4)
    as [d' [E [F _]]].
  exists d'. split; [exact E | exact F].
Defined.

(** X7. A manual record survives every later refresh: after the form was
    submitted, a refresh writes the scraped records, then the manual
    records that were stored before, then the new manual record. *)
Theorem manual_booking_survives_refresh (f : Form) (today : Py.date)
  (tripaneer_bookings : list Booking) (d : Disk) :
  form_full_name f <> EmptyString ->
  form_room_type f <> EmptyString ->
  files d !! bookings_json <> Some NotUtf8 ->
  bookings_json ∉ write_denied d ->
  exists d1 d2 : Disk,
    add_manual_booking_form f today d = Ok (d1, Some (manual_booking f today))
    /\ refresh_and_merge tripaneer_bookings d1
       = Ok (d2, tripaneer_bookings
                 ++ filter is_manual (stored d bookings_json)
                 ++ [manual_booking f today])
    /\ files d2 !! bookings_json
       = Some (Json (tripaneer_bookings
                     ++ filter is_manual (stored d bookings_json)
                     ++ [manual_booking f today])).
Proof.
  intros Hn Hroom Hr Hw. unfold add_manual_booking_form.
  apply truthy_nonempty in Hn, Hroom. rewrite Hn, Hroom. cbn [andb negb].
  rewrite (load_bookings_from_json_decodable _ _ Hr).
  cbn [mbind result_bind].
  set (now_stored := stored d bookings_json ++ [manual_booking f today]).
  destruct (stored_after_save now_stored d Hw) as (Hs & Hr1 & Hw1).
  eexists _, _. split; [reflexivity |].
  rewrite (refresh_and_merge_ok _ _ Hr1). cbv zeta. rewrite Hs.
  unfold now_stored. rewrite filter_app.
  rewrite (filter_cons_True is_manual (manual_booking f today) [])
    by reflexivity.
  rewrite filter_nil. split; [reflexivity |].
  apply save_bookings_to_json_lookup, Hw1.
Qed.

Lemma manual_booking_survives_refresh_witness :
  let d := mkDisk {[ bookings_json := Json [stay_jan] ]} ∅ in
  form_full_name same_day_form <> EmptyString
  /\ form_room_type same_day_form <> EmptyString
  /\ files d !! bookings_json <> Some NotUtf8
  /\ (bookings_json ∉ write_denied d)
  /\ exists d1 d2 : Disk,
       add_manual_booking_form same_day_form (jan 1) d
       = Ok (d1, Some (manual_booking same_day_form (jan 1)))
       /\ refresh_and_merge [stay_feb] d1
          = Ok (d2, [stay_feb; manual_booking same_day_form (jan 1)]).
Proof.
  cbv zeta.
  assert (H1 : form_full_name same_day_form <> EmptyString) by discriminate.
  assert (H2 : form_room_type same_day_form <> EmptyString) by discriminate.
  assert (H3 : files (mkDisk {[ bookings_json := Json [stay_jan] ]} ∅)
               !! bookings_json <> Some NotUtf8) by (vm_compute; discriminate).
  assert (H4 : bookings_json
               ∉ write_denied (mkDisk {[ bookings_json := Json [stay_jan] ]} ∅))
    by apply not_elem_of_empty.
  split; [exact H1 |]. split; [exact H2 |]. split; [exact H3 |].
  split; [exact H4 |].
  destruct (manual_booking_survives_refresh same_day_form (jan 1) [stay_feb]
              _ H1 H2 H3 H4) as [d1 [d2 [E [F _]]]].
  exists d1, d2. split; [exact E | exact F].
Defined.

(** ** The records of the manual form *)

(** X8. The two dates of a manual record are read back by the views as the
    dates of the form; the record is marked manual, keeps the chosen hostel,
    and its type is "Current" exactly when today lies between arrival and
    departure, "Upcoming" otherwise, also for a stay that has ended. *)
Theorem manual_booking_fields (f : Form) (today : Py.date) :
  Py.valid_date (form_arrival_date f) = true ->
  Py.valid_date (form_departure_date f) = true ->
  Py.valid_date today = true ->
  let b := manual_booking f today in
  parse_date (arrival_date b) = Some (form_arrival_date f)
  /\ parse_date (departure_date b) = Some (form_departure_date f)
  /\ source b = Some "manual"
  /\ hostel b = form_hostel f
  /\ (booking_type b = "Current"
      <-> Py.toordinal (form_arrival_date f) <= Py.toordinal today
          /\ Py.toordinal today <= Py.toordinal (form_departure_date f))
  /\ (booking_type b = "Upcoming"
      <-> ~ (Py.toordinal (form_arrival_date f) <= Py.toordinal today
             /\ Py.toordinal today <= Py.toordinal (form_departure_date f))).
Proof.
  intros Ha Hd Ht b. unfold parse_date. subst b.
  cbn [manual_booking arrival_date departure_date source hostel booking_type].
  rewrite (strptime_strftime _ Ha), (strptime_strftime _ Hd).
  rewrite <- (date_le_toordinal _ _ Ha Ht), <- (date_le_toordinal _ _ Ht Hd).
  rewrite <- andb_true_iff.
  destruct (Py.date_le (form_arrival_date f) today
            && Py.date_le today (form_departure_date f)).
  - repeat split; auto; try discriminate. intros H; now elim H.
  - repeat split; auto; discriminate.
Qed.

Lemma manual_booking_fields_witness :
  Py.valid_date (form_arrival_date same_day_form) = true
  /\ Py.valid_date (form_departure_date same_day_form) = true
  /\ Py.valid_date (jan 5) = true
  /\ parse_date (arrival_date (manual_booking same_day_form (jan 5)))
     = Some (jan 5)
  /\ booking_type (manual_booking same_day_form (jan 5)) = "Current".
Proof.
  assert (H1 : Py.valid_date (form_arrival_date same_day_form) = true)
    by reflexivity.
  assert (H2 : Py.valid_date (form_departure_date same_day_form) = true)
    by reflexivity.
  assert (H3 : Py.valid_date (jan 5) = true) by reflexivity.
  split; [exact H1 |]. split; [exact H2 |]. split; [exact H3 |].
  destruct (manual_booking_fields same_day_form (jan 5) H1 H2 H3)
    as (Ha & _ & _ & _ & Hc & _).
  split; [exact Ha |]. apply Hc. split; reflexivity.
Defined.

(** ** Arrivals and departures *)

Lemma date_eqb_eq (a b : Py.date) : Py.date_eqb a b = true <-> a = b.
Proof.
  destruct a as [ya ma da], b as [yb mb db]. unfold Py.date_eqb.
  cbn [Py.year Py.month Py.day].
  rewrite !andb_true_iff, !Z.eqb_eq. split.
  - intros [[-> ->] ->]. reflexivity.
  - intros [= -> -> ->]. auto.
Qed.

Lemma is_day_parsed (parsed : option Py.date) (day : Py.date) :
  is_day parsed day = true <-> parsed = Some day.
Proof.
  destruct parsed as [d|]; cbn [is_day].
  - rewrite date_eqb_eq. split; congruence.
  - split; discriminate.
Qed.

Lemma filter_snoc_if {A : Type} (P : A -> Prop) `{!forall x, Decision (P x)}
  (test : bool) (acc l : list A) (x : A) :
  (test = true <-> P x) ->
  (if test then (acc ++ filter P l) ++ [x] else acc ++ filter P l)
  = acc ++ filter P (l ++ [x]).
Proof.
  intros Ht. rewrite filter_app.
  destruct test.
  - rewrite (filter_cons_True P x []) by (apply Ht; reflexivity).
    rewrite filter_nil. now rewrite app_assoc.
  - rewrite (filter_cons_False P x []).
    + rewrite filter_nil. now rewrite app_nil_r.
    + intros HP. apply Ht in HP. discriminate.
Qed.

(** X9. The arrivals of a day are the bookings whose arrival date parses to
    that day, in their order, and likewise the departures; a booking whose
    date does not parse is in neither list of any day. *)
Theorem display_specific_day_movements_spec (bookings : list Booking)
  (selected_date : Py.date) :
  day_arrivals (display_specific_day_movements bookings selected_date)
  = filter (fun b => parse_date (arrival_date b) = Some selected_date) bookings
  /\ day_departures (display_specific_day_movements bookings selected_date)
     = filter (fun b => parse_date (departure_date b) = Some selected_date)
         bookings.
Proof.
  unfold display_specific_day_movements.
  induction bookings as [|b l [IHa IHd]] using rev_ind; [split; reflexivity |].
  rewrite fold_left_app. cbn [fold_left day_arrivals day_departures].
  rewrite IHa, IHd. split.
  - apply (filter_snoc_if _ _ [] l b), is_day_parsed.
  - apply (filter_snoc_if _ _ [] l b), is_day_parsed.
Qed.

Lemma add_one_day_neq (d d' : Py.date) : add_one_day d = Some d' -> d' <> d.
Proof.
  unfold add_one_day. destruct d as [y m dd]. cbn [Py.year Py.month Py.day].
  destruct (dd <? Py.days_in_month y m); [intros [= <-] [= H]; lia |].
  destruct (m <? 12); [intros [= <-] [= H]; lia |].
  destruct (y <? 9999); [intros [= <-] [= H]; lia | discriminate].
Qed.

(** The date that [add_one_day] gives is the calendar date with the next
    day number. *)
Lemma add_one_day_toordinal (d d' : Py.date) :
  Py.valid_date d = true -> add_one_day d = Some d' ->
  Py.valid_date d' = true /\ Py.toordinal d' = Py.toordinal d + 1.
Proof.
  destruct d as [y m dd]. unfold add_one_day, Py.valid_date, Py.between,
    Py.toordinal. cbn [Py.year Py.month Py.day]. intros Hv.
  assert (Hm : 1 <= m <= 12) by lia.
  destruct (Z.ltb_spec dd (Py.days_in_month y m)) as [Hlt | Hge].
  - intros [= <-]. cbn [Py.year Py.month Py.day]. split; lia.
  - destruct (Z.ltb_spec m 12) as [Hm12 | Hm12].
    + intros [= <-]. cbn [Py.year Py.month Py.day].
      assert (Hm' : 1 <= m + 1 <= 12) by lia.
      rewrite (days_before_month_table y m Hm),
        (days_before_month_table y (m + 1) Hm').
      revert Hv Hge. unfold Py.days_in_month.
      month_cases m; try lia;
        repeat match goal with
               | |- context [Z.pos ?p + 1] =>
                   let v := eval vm_compute in (Z.pos p + 1) in
                   change (Z.pos p + 1) with v
               end;
        destruct (Py.is_leap y); cbn; intros; split; lia.
    + destruct (Z.ltb_spec y 9999) as [Hy | Hy]; [| discriminate].
      intros [= <-]. cbn [Py.year Py.month Py.day].
      assert (m = 12) by lia. subst m.
      rewrite days_before_year_succ.
      rewrite (days_before_month_table y 12 Hm),
        (days_before_month_table (y + 1) 1) by lia.
      revert Hv Hge. unfold Py.days_in_month. cbn.
      destruct (Py.is_leap y), (Py.is_leap (y + 1)); intros; split; lia.
Qed.

Lemma record_movement_fold (today tomorrow : Py.date) (bookings : list Booking) :
  tomorrow <> today ->
  fold_left (record_movement today tomorrow) bookings (mkMovements [] [] [] [])
  = {| today_arrivals :=
         filter (fun b => parse_date (arrival_date b) = Some today) bookings;
       today_departures :=
         filter (fun b => parse_date (departure_date b) = Some today) bookings;
       tomorrow_arrivals :=
         filter (fun b => parse_date (arrival_date b) = Some tomorrow) bookings;
       tomorrow_departures :=
         filter (fun b => parse_date (departure_date b) = Some tomorrow)
           bookings |}.
Proof.
  intros Hne.
  induction bookings as [|b l IH] using rev_ind; [reflexivity |].
  rewrite fold_left_app, IH. cbn [fold_left]. unfold record_movement.
  cbn [today_arrivals today_departures tomorrow_arrivals tomorrow_departures].
  rewrite !filter_app.
  assert (Hcase : forall parsed : option Py.date,
            (is_day parsed today = true /\ is_day parsed tomorrow = false
             /\ parsed = Some today /\ parsed <> Some tomorrow)
            \/ (is_day parsed today = false /\ is_day parsed tomorrow = true
                /\ parsed <> Some today /\ parsed = Some tomorrow)
            \/ (is_day parsed today = false /\ is_day parsed tomorrow = false
                /\ parsed <> Some today /\ parsed <> Some tomorrow)).
  { intros parsed.
    destruct (is_day parsed today) eqn:E1, (is_day parsed tomorrow) eqn:E2.
    - apply is_day_parsed in E1, E2. congruence.
    - left. apply is_day_parsed in E1. repeat split; congruence.
    - right; left. apply is_day_parsed in E2. repeat split; congruence.
    - right; right. repeat split; auto; intros H; apply is_day_parsed in H;
        congruence. }
  destruct (Hcase (parse_date (arrival_date b)))
    as [(Ea1 & Ea2 & Ha1 & Ha2) | [(Ea1 & Ea2 & Ha1 & Ha2)
                                  | (Ea1 & Ea2 & Ha1 & Ha2)]];
  destruct (Hcase (parse_date (departure_date b)))
    as [(Ed1 & Ed2 & Hd1 & Hd2) | [(Ed1 & Ed2 & Hd1 & Hd2)
                                  | (Ed1 & Ed2 & Hd1 & Hd2)]].
  all: rewrite Ea1, ?Ea2, Ed1, ?Ed2; cbv iota beta zeta; f_equal.
  all: first [ rewrite (filter_cons_True _ b []) by assumption
             | rewrite (filter_cons_False _ b []) by assumption ].
  all: rewrite filter_nil, ?app_nil_r; reflexivity.
Qed.

(** X10. For a calendar day [today] before 9999-12-31, the lists of today
    and of tomorrow are those of the day view at [today] and at the day
    after it: the [elif] of the loop loses no booking. *)
Theorem display_todays_movements_spec (bookings : list Booking)
  (today tomorrow : Py.date) :
  Py.valid_date today = true ->
  add_one_day today = Some tomorrow ->
  Py.toordinal tomorrow = Py.toordinal today + 1
  /\ exists m : Movements,
       display_todays_movements bookings today = Some m
       /\ today_arrivals m
          = day_arrivals (display_specific_day_movements bookings today)
       /\ today_departures m
          = day_departures (display_specific_day_movements bookings today)
       /\ tomorrow_arrivals m
          = day_arrivals (display_specific_day_movements bookings tomorrow)
       /\ tomorrow_departures m
          = day_departures (display_specific_day_movements bookings tomorrow).
Proof.
  intros Hv Ht. split; [apply (add_one_day_toordinal today), Ht; exact Hv |].
  unfold display_todays_movements. rewrite Ht. cbn [mbind option_bind].
  rewrite (record_movement_fold today tomorrow bookings (add_one_day_neq _ _ Ht)).
  eexists. split; [reflexivity |].
  cbn [today_arrivals today_departures tomorrow_arrivals tomorrow_departures].
  destruct (display_specific_day_movements_spec bookings today) as [-> ->].
  destruct (display_specific_day_movements_spec bookings tomorrow) as [-> ->].
  repeat split; reflexivity.
Qed.

Lemma display_todays_movements_spec_witness :
  Py.valid_date (jan 19) = true
  /\ add_one_day (jan 19) = Some (jan 20)
  /\ Py.toordinal (jan 20) = Py.toordinal (jan 19) + 1
  /\ exists m : Movements,
       display_todays_movements [stay_jan; stay_feb] (jan 19) = Some m
       /\ tomorrow_departures m
          = day_departures
              (display_specific_day_movements [stay_jan; stay_feb] (jan 20)).
Proof.
  assert (H1 : Py.valid_date (jan 19) = true) by reflexivity.
  assert (H2 : add_one_day (jan 19) = Some (jan 20)) by reflexivity.
  split; [exact H1 |]. split; [exact H2 |].
  destruct (display_todays_movements_spec [stay_jan; stay_feb]
              (jan 19) (jan 20) H1 H2) as [Ho [m (E & _ & _ & _ & F)]].
  split; [exact Ho |]. exists m. split; [exact E | exact F].
Defined.

(** X11. A manual record shows up among the arrivals of the arrival day of
    its form and among the departures of its departure day. *)
Theorem manual_booking_in_movements (f : Form) (today : Py.date)
  (bookings : list Booking) :
  Py.valid_date (form_arrival_date f) = true ->
  Py.valid_date (form_departure_date f) = true ->
  manual_booking f today
    ∈ day_arrivals
        (display_specific_day_movements
           (bookings ++ [manual_booking f today]) (form_arrival_date f))
  /\ manual_booking f today
       ∈ day_departures
           (display_specific_day_movements
              (bookings ++ [manual_booking f today]) (form_departure_date f)).
Proof.
  intros Ha Hd.
  destruct (display_specific_day_movements_spec
              (bookings ++ [manual_booking f today]) (form_arrival_date f))
    as [-> _].
  destruct (display_specific_day_movements_spec
              (bookings ++ [manual_booking f today]) (form_departure_date f))
    as [_ ->].
  rewrite !list_elem_of_filter, !elem_of_app, !elem_of_cons.
  unfold parse_date. cbn [manual_booking arrival_date departure_date].
  rewrite (strptime_strftime _ Ha), (strptime_strftime _ Hd). auto.
Qed.

Lemma manual_booking_in_movements_witness :
  Py.valid_date (form_arrival_date backwards_form) = true
  /\ Py.valid_date (form_departure_date backwards_form) = true
  /\ manual_booking backwards_form (jan 1)
       ∈ day_arrivals
           (display_specific_day_movements
              ([stay_jan] ++ [manual_booking backwards_form (jan 1)]) (jan 5)).
Proof.
  assert (H1 : Py.valid_date (form_arrival_date backwards_form) = true)
    by reflexivity.
  assert (H2 : Py.valid_date (form_departure_date backwards_form) = true)
    by reflexivity.
  split; [exact H1 |]. split; [exact H2 |].
  exact (proj1 (manual_booking_in_movements backwards_form (jan 1)
                  [stay_jan] H1 H2)).
Defined.

(** ** The occupancy report *)

Lemma Zsum_app (l1 l2 : list Z) : Zsum (l1 ++ l2) = Zsum l1 + Zsum l2.
Proof.
  unfold Zsum. induction l1 as [|x l1 IH]; cbn [app fold_right]; lia.
Qed.

Lemma parsed_guests_snoc (l : list Booking) (b : Booking) (n : Z) :
  Py.int (number_of_guests b) = Some n ->
  Zsum (parsed_guests (l ++ [b])) = Zsum (parsed_guests l) + n.
Proof.
  intros Hn. unfold parsed_guests. rewrite omap_app, Zsum_app.
  cbn [omap list_omap]. rewrite Hn. unfold Zsum. cbn [fold_right]. lia.
Qed.

(** The dictionary that the grouping loop builds, hostel by hostel. *)
Lemma occupy_fold (l : list Booking) :
  Forall (fun b => is_Some (Py.int (number_of_guests b))) l ->
  exists occ : list (string * Occupancy),
    fold_left occupy l (Some []) = Some occ
    /\ forall h : string,
         assoc h occ
         = (fun l' => mkOccupancy (Zsum (parsed_guests l'))
                        (group_by departure_date l'))
           <$> nonempty (filter (fun b => hostel b = h) l).
Proof.
  induction l as [|b l IH] using rev_ind; intros Hall.
  - exists []. split; reflexivity.
  - apply Forall_app in Hall as [Hl Hb].
    apply Forall_cons in Hb as [[n Hn] _].
    destruct (IH Hl) as [occ [Hocc Hassoc]].
    rewrite fold_left_app, Hocc. cbn [fold_left].
    unfold occupy. cbn [mbind option_bind]. rewrite Hn.
    cbn [mbind option_bind]. eexists. split; [reflexivity |].
    intros h. rewrite assoc_update, filter_app.
    destruct (String.eqb_spec h (hostel b)) as [-> | Hne].
    + rewrite Hassoc.
      rewrite (filter_cons_True _ b []) by reflexivity. rewrite filter_nil.
      destruct (filter (fun b0 => hostel b0 = hostel b) l) as [|x l'] eqn:E.
      * cbn [nonempty fmap option_fmap option_map default app guests departures].
        unfold parsed_guests. cbn [omap list_omap]. rewrite Hn.
        unfold Zsum. cbn [fold_right]. f_equal. f_equal. lia.
      * change (nonempty ((x :: l') ++ [b])) with (Some ((x :: l') ++ [b])).
        cbn [nonempty fmap option_fmap option_map default from_option].
        unfold id. cbn [guests departures].
        rewrite (parsed_guests_snoc _ _ _ Hn), group_by_snoc.
        reflexivity.
    + rewrite (filter_cons_False _ b []) by congruence.
      rewrite filter_nil, app_nil_r. apply Hassoc.
Qed.

Lemma assoc_Some_elem {V : Type} (k : string) (v : V) (d : list (string * V)) :
  NoDup d.*1 -> (assoc k d = Some v <-> (k, v) ∈ d).
Proof.
  induction d as [|[k0 v0] d IH]; cbn [assoc]; intros Hd.
  - rewrite elem_of_nil. split; [discriminate | tauto].
  - cbn [fmap list_fmap fst] in Hd. change (list_fmap _ _ fst ?l) with (l.*1) in Hd.
    apply NoDup_cons in Hd as [Hk0 Hd]. rewrite elem_of_cons.
    destruct (String.eqb_spec k k0) as [-> | Hne].
    + split.
      * intros [= ->]. now left.
      * intros [[= ->] | Hin]; [reflexivity |].
        exfalso. apply Hk0. apply list_elem_of_fmap. now exists (k0, v).
    + rewrite (IH Hd). split; [tauto |].
      intros [[= -> ->] | Hin]; [congruence | exact Hin].
Qed.

Lemma assoc_None_keys {V : Type} (k : string) (d : list (string * V)) :
  assoc k d = None <-> k ∉ d.*1.
Proof.
  induction d as [|[k0 v0] d IH]; cbn [assoc].
  - cbn. rewrite elem_of_nil. tauto.
  - cbn [fmap list_fmap fst]. change (list_fmap _ _ fst ?l) with (l.*1).
    rewrite elem_of_cons.
    destruct (String.eqb_spec k k0) as [-> | Hne].
    + split; [discriminate | tauto].
    + rewrite IH. tauto.
Qed.

(** Sorting the items of a dictionary does not change what a key maps to. *)
Lemma assoc_sorted {V : Type} (k : string) (d : list (string * V)) :
  NoDup d.*1 -> assoc k (sorted d) = assoc k d.
Proof.
  intros Hd. destruct (sorted_spec d) as [_ Hp].
  assert (Hd' : NoDup (sorted d).*1) by now rewrite Hp.
  destruct (assoc k d) as [v|] eqn:E.
  - apply (assoc_Some_elem k v _ Hd) in E.
    apply (assoc_Some_elem k v _ Hd'). now rewrite Hp.
  - apply assoc_None_keys in E. apply assoc_None_keys. now rewrite Hp.
Qed.

(** X12. In the report, the section of a hostel exists exactly when a
    selected booking has that hostel; its guest total is the sum of the
    guest counts of the selected bookings of the hostel, and the bucket of a
    departure date lists exactly the selected bookings of the hostel with
    that departure date, in their order. *)
Theorem display_occupancy_by_hostel_sections (bookings : list Booking)
  (selected_hostel : string) (start end_ : Py.date)
  (hostels : list (string * (Z * list (string * list Booking))))
  (h date_str : string) :
  display_occupancy_by_hostel bookings selected_hostel start end_
  = Sections hostels ->
  let of_hostel :=
    filter (fun b => hostel b = h)
      (filtered_bookings selected_hostel start end_ bookings) in
  fst <$> assoc h hostels
  = (fun l => Zsum (parsed_guests l)) <$> nonempty of_hostel
  /\ (snd <$> assoc h hostels) ≫= assoc date_str
     = nonempty (filter (fun b => departure_date b = date_str) of_hostel).
Proof.
  unfold display_occupancy_by_hostel.
  destruct (negb (Py.date_le start end_)); [discriminate |].
  set (filtered := filtered_bookings selected_hostel start end_ bookings).
  assert (Hnum : Forall (fun b => is_Some (Py.int (number_of_guests b)))
                   filtered).
  { apply Forall_forall. intros x Hx. unfold filtered, filtered_bookings in Hx.
    apply list_elem_of_filter in Hx as [Hx _]. eapply in_period_numeric, Hx. }
  destruct (occupy_fold filtered Hnum) as [occ [Hocc Hassoc]].
  destruct filtered as [|b0 l0] eqn:Ef; [discriminate |].
  cbv iota. rewrite <- Ef in *. rewrite Hocc. intros [= <-].
  set (of_hostel := filter (fun b => hostel b = h) filtered).
  rewrite (assoc_map_values
             (fun _ data => (guests data, sorted (departures data)))).
  rewrite Hassoc. fold of_hostel.
  clearbody of_hostel. destruct of_hostel as [|x l]; [split; reflexivity |].
  cbn [nonempty fmap option_fmap option_map fst snd guests departures
       mbind option_bind].
  split; [reflexivity |].
  rewrite assoc_sorted by apply group_by_NoDup.
  apply assoc_group_by.
Qed.

Lemma display_occupancy_by_hostel_sections_witness :
  exists hostels : list (string * (Z * list (string * list Booking))),
    display_occupancy_by_hostel [stay_jan; stay_dec; stay_feb] "All"
      (jan 1) (jan 31)
    = Sections hostels
    /\ fst <$> assoc "Tamraght" hostels = Some 5
    /\ (snd <$> assoc "Tamraght" hostels) ≫= assoc "2024-Feb-02"
       = Some [stay_feb].
Proof.
  eexists.
  assert (H : display_occupancy_by_hostel [stay_jan; stay_dec; stay_feb] "All"
                (jan 1) (jan 31)
              = Sections
                  [("Tamraght",
                    (5, [("2024-Feb-02", [stay_feb]);
                         ("2024-Jan-20", [stay_jan])]))])
    by (vm_compute; reflexivity).
  split; [exact H |].
  exact (display_occupancy_by_hostel_sections _ _ _ _ _
           "Tamraght" "2024-Feb-02" H).
Defined.

(** X13. For a booking whose departure is not before its arrival and a
    period of calendar days, the overlap test of the report holds exactly
    when the stay and the period have a day in common. *)
Theorem in_period_common_day (start end_ arrival departure : Py.date)
  (b : Booking) :
  Py.valid_date start = true -> Py.valid_date end_ = true ->
  Py.toordinal start <= Py.toordinal end_ ->
  parse_date (arrival_date b) = Some arrival ->
  parse_date (departure_date b) = Some departure ->
  Py.toordinal arrival <= Py.toordinal departure ->
  hostel b <> EmptyString ->
  numeric_guests b ->
  in_period "All" start end_ b = true
  <-> exists day : Z,
        Py.toordinal start <= day <= Py.toordinal end_
        /\ Py.toordinal arrival <= day <= Py.toordinal departure.
Proof.
  intros Hs He Hse Ha Hd Had Hh Hn.
  pose proof (strptime_valid _ _ Ha) as Hva.
  pose proof (strptime_valid _ _ Hd) as Hvd.
  rewrite (in_period_selected _ _ _ _ Hh).
  unfold selected, overlaps, hostel_matches. split.
  - intros (_ & (a & d & Ha' & Hd' & Hae & Hsd) & _).
    rewrite Ha in Ha'. rewrite Hd in Hd'.
    injection Ha' as <-. injection Hd' as <-.
    apply (date_le_toordinal _ _ Hva He) in Hae.
    apply (date_le_toordinal _ _ Hs Hvd) in Hsd.
    exists (Z.max (Py.toordinal start) (Py.toordinal arrival)). lia.
  - intros [day [H1 H2]]. split; [now left |]. split; [| exact Hn].
    exists arrival, departure. split; [exact Ha |]. split; [exact Hd |].
    split.
    + apply (date_le_toordinal _ _ Hva He). lia.
    + apply (date_le_toordinal _ _ Hs Hvd). lia.
Qed.

Lemma in_period_common_day_witness :
  Py.valid_date (jan 1) = true /\ Py.valid_date (jan 31) = true
  /\ Py.toordinal (jan 1) <= Py.toordinal (jan 31)
  /\ parse_date (arrival_date stay_feb) = Some (jan 15)
  /\ parse_date (departure_date stay_feb) = Some (Py.mkdate 2024 2 2)
  /\ Py.toordinal (jan 15) <= Py.toordinal (Py.mkdate 2024 2 2)
  /\ hostel stay_feb <> EmptyString
  /\ numeric_guests stay_feb
  /\ (in_period "All" (jan 1) (jan 31) stay_feb = true
      <-> exists day : Z,
            Py.toordinal (jan 1) <= day <= Py.toordinal (jan 31)
            /\ Py.toordinal (jan 15) <= day
               <= Py.toordinal (Py.mkdate 2024 2 2)).
Proof.
  assert (H1 : Py.valid_date (jan 1) = true) by reflexivity.
  assert (H2 : Py.valid_date (jan 31) = true) by reflexivity.
  assert (H3 : Py.toordinal (jan 1) <= Py.toordinal (jan 31))
    by (vm_compute; discriminate).
  assert (H4 : parse_date (arrival_date stay_feb) = Some (jan 15))
    by reflexivity.
  assert (H5 : parse_date (departure_date stay_feb)
               = Some (Py.mkdate 2024 2 2)) by reflexivity.
  assert (H6 : Py.toordinal (jan 15) <= Py.toordinal (Py.mkdate 2024 2 2))
    by (vm_compute; discriminate).
  assert (H7 : hostel stay_feb <> EmptyString) by discriminate.
  assert (H8 : numeric_guests stay_feb)
    by (split; [reflexivity | exists 2; reflexivity]).
  repeat (split; [assumption |]).
  exact (in_period_common_day _ _ _ _ stay_feb H1 H2 H3 H4 H5 H6 H7 H8).
Defined.

(** ** Statistics and nights *)

(** X14. When every record has the type "Current" or "Upcoming", as the
    records of a scrape and of the manual form have, the two counts of the
    statistics add up to the total. *)
Theorem display_booking_stats_types (bookings : list Booking) :
  bookings <> [] ->
  Forall (fun b => booking_type b = "Current" \/ booking_type b = "Upcoming")
    bookings ->
  exists st : Stats,
    display_booking_stats bookings = Some st
    /\ current_bookings st + upcoming_bookings st = total_bookings st.
Proof.
  intros Hne Hall. unfold display_booking_stats.
  destruct bookings as [|b0 l0] eqn:E; [congruence |]. rewrite <- E in *.
  eexists. split; [reflexivity |].
  cbn [current_bookings upcoming_bookings total_bookings]. unfold count_type.
  clear E Hne b0 l0. induction Hall as [|b l Hb _ IH]; [reflexivity |].
  destruct Hb as [Hb | Hb].
  - rewrite (filter_cons_True (fun b => booking_type b = "Current") b l Hb).
    rewrite (filter_cons_False (fun b => booking_type b = "Upcoming") b l)
      by (rewrite Hb; discriminate).
    cbn [length]. lia.
  - rewrite (filter_cons_False (fun b => booking_type b = "Current") b l)
      by (rewrite Hb; discriminate).
    rewrite (filter_cons_True (fun b => booking_type b = "Upcoming") b l Hb).
    cbn [length]. lia.
Qed.

Lemma display_booking_stats_types_witness :
  [stay_jan; stay_dec] <> []
  /\ Forall (fun b => booking_type b = "Current" \/ booking_type b = "Upcoming")
       [stay_jan; stay_dec]
  /\ exists st : Stats,
       display_booking_stats [stay_jan; stay_dec] = Some st
       /\ current_bookings st + upcoming_bookings st = total_bookings st.
Proof.
  assert (H1 : [stay_jan; stay_dec] <> []) by discriminate.
  assert (H2 : Forall (fun b => booking_type b = "Current"
                                \/ booking_type b = "Upcoming")
                 [stay_jan; stay_dec]).
  { apply Forall_cons_2; [left; reflexivity |].
    apply Forall_cons_2; [right; reflexivity | apply Forall_nil_2]. }
  split; [exact H1 |]. split; [exact H2 |].
  exact (display_booking_stats_types _ H1 H2).
Defined.

(** X15. The number of nights is 0 exactly when one of the two texts does
    not parse: 0 never stands for a stay between two dates that parse. *)
Theorem calculate_nights_zero (a d : string) :
  calculate_nights a d = 0
  <-> Py.strptime a = None \/ Py.strptime d = None.
Proof.
  rewrite calculate_nights_eq_cases.
  destruct (Py.strptime a) as [x|], (Py.strptime d) as [y|].
  - split; [lia | intros [H | H]; discriminate].
  - split; auto.
  - split; auto.
  - split; auto.
Qed.

(** ** The session *)

Lemma login_flag (srv : LoginServer) (username password : string)
  (logged_in : bool) :
  login srv username password logged_in = (true, true)
  \/ login srv username password logged_in = (logged_in, false).
Proof.
  unfold login. destruct (login_page srv) as [|csrf]; [now right |].
  destruct (login_post srv _) as [status|]; [| now right].
  destruct (status =? 200); [now left | now right].
Qed.

Lemma main_step_flags (a : Action) (s : Session) (d : Disk) :
  scraper_flag s = session_flag s ->
  scraper_flag (fst (main_step a s d)) = session_flag (fst (main_step a s d)).
Proof.
  intros H. destruct a as [srv u p | | | P | f today]; cbn [main_step].
  - destruct (login_flag srv u p (scraper_flag s)) as [-> | ->]; cbn; auto.
  - reflexivity.
  - destruct (load_bookings_from_json bookings_json d); cbn; auto.
  - destruct (session_flag s) eqn:E; [| cbn [fst]; congruence].
    destruct (refresh_and_save _ P d) as [[d' all]|]; cbn; congruence.
  - destruct (session_bookings s); [exact H |].
    destruct (load_bookings_from_json bookings_json d); [| exact H].
    destruct (add_manual_booking_form f today d) as [[d' [bk|]]|]; cbn; auto.
Qed.

Lemma main_run_snoc (actions : list Action) (a : Action) (s : Session)
  (d : Disk) :
  main_run (actions ++ [a]) s d
  = main_step a (fst (main_run actions s d)) (snd (main_run actions s d)).
Proof. unfold main_run. now rewrite fold_left_app. Qed.

(** X16. After any sequence of interactions from a fresh session, the
    scraper's login flag and the session's login flag are equal: a failed
    login leaves both as they were, and the refresh, offered only while the
    session is logged in, never runs with a logged-out scraper. *)
Theorem main_run_flags (actions : list Action) (d0 : Disk) :
  scraper_flag (fst (main_run actions initial_session d0))
  = session_flag (fst (main_run actions initial_session d0)).
Proof.
  induction actions as [|a actions IH] using rev_ind; [reflexivity |].
  rewrite main_run_snoc. apply main_step_flags, IH.
Qed.

Lemma main_step_shows_file (a : Action) (s : Session) (d : Disk) :
  shows_file s d ->
  shows_file (fst (main_step a s d)) (snd (main_step a s d)).
Proof.
  intros [Hw Hs]. unfold shows_file.
  destruct a as [srv u p | | | P | f today]; cbn [main_step].
  - destruct (login srv u p (scraper_flag s)) as [flag ok].
    cbn [fst snd session_bookings]. now split.
  - cbn [fst snd session_bookings]. split; [exact Hw | now left].
  - unfold load_bookings_from_json.
    destruct (files d !! bookings_json) as [[| | |bookings]|] eqn:E;
      cbn [json_load load_handles fst snd session_bookings];
      (split; [exact Hw |]); auto; rewrite E; exact Hs.
  - destruct (session_flag s); [| now split].
    unfold refresh_and_save.
    assert (Hcase : files d !! bookings_json = Some NotUtf8
                    \/ files d !! bookings_json <> Some NotUtf8).
    { destruct (files d !! bookings_json) as [[| | |bks]|];
        (now left) || (right; discriminate). }
    destruct Hcase as [E | E].
    + unfold refresh_and_merge, load_bookings_from_json. rewrite E.
      cbn [json_load load_handles mbind result_bind fst snd]. now split.
    + rewrite (refresh_and_merge_ok _ _ E). cbv zeta.
      cbn [fst snd session_bookings].
      destruct (stored_after_save
                  (extract_booking_data (scraper_flag s) P
                   ++ filter is_manual (stored d bookings_json)) d Hw)
        as (_ & _ & Hw').
      split; [exact Hw' |]. right.
      apply save_bookings_to_json_lookup, Hw.
  - destruct (session_bookings s) as [|b0 l0] eqn:Eb.
    + cbn [fst snd]. rewrite Eb. split; [exact Hw | now left].
    + rewrite <- Eb in *.
      destruct (load_bookings_from_json bookings_json d) as [current|] eqn:El;
        [| now split].
      unfold add_manual_booking_form.
      destruct (negb _); [now split |].
      rewrite El. cbn [mbind result_bind fst snd session_bookings].
      destruct (stored_after_save (current ++ [manual_booking f today]) d Hw)
        as (_ & _ & Hw').
      split; [exact Hw' |]. right.
      apply save_bookings_to_json_lookup, Hw.
Qed.

(** X17. On a disk where [bookings.json] can be written, after any sequence
    of interactions from a fresh session the dashboard holds either no
    bookings or exactly the sequence that [bookings.json] holds. *)
Theorem main_run_shows_file (actions : list Action) (d0 : Disk) :
  bookings_json ∉ write_denied d0 ->
  session_bookings (fst (main_run actions initial_session d0)) = []
  \/ files (snd (main_run actions initial_session d0)) !! bookings_json
     = Some (Json (session_bookings
                     (fst (main_run actions initial_session d0)))).
Proof.
  intros Hw.
  assert (H : shows_file (fst (main_run actions initial_session d0))
                (snd (main_run actions initial_session d0))).
  { induction actions as [|a actions IH] using rev_ind.
    - split; [exact Hw | now left].
    - rewrite main_run_snoc. apply main_step_shows_file, IH. }
  apply H.
Qed.

Lemma main_run_shows_file_witness :
  let d := mkDisk {[ bookings_json := Json [stay_jan; stay_dec] ]} ∅ in
  (bookings_json ∉ write_denied d)
  /\ session_bookings
       (fst (main_run [PressLoad; SubmitManual same_day_form (jan 1)]
               initial_session d))
     = [stay_jan; stay_dec; manual_booking same_day_form (jan 1)]
  /\ (session_bookings
        (fst (main_run [PressLoad; SubmitManual same_day_form (jan 1)]
                initial_session d)) = []
      \/ files
           (snd (main_run [PressLoad; SubmitManual same_day_form (jan 1)]
                   initial_session d)) !! bookings_json
         = Some (Json (session_bookings
                         (fst (main_run
                                 [PressLoad;
                                  SubmitManual same_day_form (jan 1)]
                                 initial_session d))))).
Proof.
  cbv zeta.
  assert (H : bookings_json
              ∉ write_denied
                  (mkDisk {[ bookings_json := Json [stay_jan; stay_dec] ]} ∅))
    by apply not_elem_of_empty.
  split; [exact H |]. split; [vm_compute; reflexivity |].
  exact (main_run_shows_file
           [PressLoad; SubmitManual same_day_form (jan 1)] _ H).
Defined.

(** ** Guest counts are read back as numbers *)

Lemma digit_not_space (c : ascii) :
  Py.is_digit c = true -> Py.is_space c = false.
Proof. unfold Py.is_digit, Py.is_space, Py.between. cbv zeta. lia. Qed.

Lemma digit_not_sign (c : ascii) :
  Py.is_digit c = true ->
  Ascii.eqb c "-" = false /\ Ascii.eqb c "+" = false.
Proof.
  intros H. split.
  - destruct (Ascii.eqb_spec c "-") as [-> |]; [discriminate H | reflexivity].
  - destruct (Ascii.eqb_spec c "+") as [-> |]; [discriminate H | reflexivity].
Qed.

Lemma lstrip_id (l : list ascii) :
  Forall (fun c => Py.is_space c = false) l -> Py.lstrip l = l.
Proof. intros [|c t Hc _]; cbn [Py.lstrip]; [reflexivity | now rewrite Hc]. Qed.

Lemma strip_id (l : list ascii) :
  Forall (fun c => Py.is_space c = false) l -> Py.strip l = l.
Proof.
  intros H. unfold Py.strip. rewrite (lstrip_id l H).
  rewrite lstrip_id by (apply Forall_rev, H). apply rev_involutive.
Qed.

Lemma count_digits_le (l : list ascii) : (Py.count_digits l <= length l)%nat.
Proof.
  unfold Py.count_digits. induction l as [|c t IH]; cbn [List.filter length].
  - lia.
  - destruct (Py.is_digit c); cbn [length]; lia.
Qed.

Lemma length_chars (s : string) : length (Py.chars s) = String.length s.
Proof.
  unfold Py.chars. induction s as [|c s IH]; cbn; [reflexivity | now rewrite IH].
Qed.

(** A run of digits is a number that is not negative. *)
Lemma digits_from_digits (l : list ascii) (acc : Z) :
  Forall (fun c => Py.is_digit c = true) l -> 0 <= acc ->
  exists v : Z, Py.digits_from acc false l = Some v /\ 0 <= v.
Proof.
  intros H. revert acc. induction H as [|c t Hc _ IH]; intros acc Hacc.
  - exists acc. now split.
  - cbn [Py.digits_from]. rewrite Hc. apply IH.
    unfold Py.is_digit, Py.between in Hc. unfold Py.digit_val. lia.
Qed.

Lemma int_of_digits (l : list ascii) :
  l <> [] -> Forall (fun c => Py.is_digit c = true) l ->
  (length l <= 4300)%nat ->
  exists n : Z, Py.int (Py.str l) = Some n /\ 0 <= n.
Proof.
  intros Hne Hd Hlen. unfold Py.int, Py.chars, Py.str.
  rewrite list_ascii_of_string_of_list_ascii.
  rewrite strip_id
    by (eapply Forall_impl; [exact Hd | apply digit_not_space]).
  pose proof (count_digits_le l) as Hc.
  destruct (Nat.ltb_spec Py.int_max_str_digits (Py.count_digits l)) as [Hlt|_];
    [unfold Py.int_max_str_digits in Hlt; lia |].
  destruct l as [|c t]; [congruence |].
  apply Forall_cons in Hd as [Hc0 Ht].
  destruct (digit_not_sign c Hc0) as [-> ->].
  unfold Py.unsigned_literal. rewrite Hc0.
  apply digits_from_digits; [exact Ht |].
  unfold Py.is_digit, Py.between in Hc0. unfold Py.digit_val. lia.
Qed.

Lemma take_digits_spec (l : list ascii) :
  Forall (fun c => Py.is_digit c = true) (take_digits l)
  /\ (length (take_digits l) <= length l)%nat.
Proof.
  induction l as [|c t [IH1 IH2]]; cbn [take_digits].
  - split; [constructor | reflexivity].
  - destruct (Py.is_digit c) eqn:E; cbn [length].
    + split; [constructor; assumption | lia].
    + split; [constructor | lia].
Qed.

Lemma first_number_spec (l : list ascii) :
  (exists c : ascii, c ∈ l /\ Py.is_digit c = true) ->
  exists run : list ascii,
    first_number l = Some run /\ run <> []
    /\ Forall (fun c => Py.is_digit c = true) run
    /\ (length run <= length l)%nat.
Proof.
  induction l as [|c t IH]; intros [x [Hx Hd]].
  - apply elem_of_nil in Hx. contradiction.
  - cbn [first_number]. destruct (Py.is_digit c) eqn:E.
    + exists (take_digits (c :: t)). split; [reflexivity |].
      destruct (take_digits_spec (c :: t)) as [H1 H2].
      split; [| split; assumption]. cbn [take_digits]. rewrite E. discriminate.
    + apply elem_of_cons in Hx as [-> | Hx]; [congruence |].
      destruct IH as (run & H1 & H2 & H3 & H4); [eauto |].
      exists run. cbn [length]. repeat split; auto.
Qed.

(** X18. When the guests cell of a conversation page holds a digit (and no
    more than 4300 characters), the scraped guest count is a number that is
    not negative and no sentinel: the statistics and the occupancy report
    read it with [int]. *)
Theorem scraped_guest_count_parses (P : Portal) (link text : string)
  (guest_elements room_elements : list Cell) :
  conversation P link = DetailPage 200 guest_elements room_elements ->
  find_labelled "Guests" guest_elements = Some text ->
  (exists c : ascii, c ∈ Py.chars text /\ Py.is_digit c = true) ->
  (String.length text <= 4300)%nat ->
  exists n : Z,
    Py.int (fst (extract_guest_and_room_info P link)) = Some n
    /\ 0 <= n
    /\ is_sentinel (fst (extract_guest_and_room_info P link)) = false.
Proof.
  intros Hpage Hfind Hdigit Hlen. unfold extract_guest_and_room_info.
  rewrite Hpage. cbn [Z.eqb Pos.eqb]. rewrite Hfind.
  destruct (first_number_spec _ Hdigit) as (run & -> & Hne & Hd & Hl).
  cbn [fst]. rewrite length_chars in Hl.
  destruct (int_of_digits run Hne Hd) as [n [Hn Hn0]]; [lia |].
  exists n. split; [exact Hn |]. split; [exact Hn0 |].
  destruct (is_sentinel (Py.str run)) eqn:Es; [| reflexivity].
  apply sentinel_not_int in Es. congruence.
Qed.

Lemma scraped_guest_count_parses_witness :
  let P := mkPortal FetchError
             (fun _ => DetailPage 200
                         [mkCell (Some "Guests") (Some "2 persons")] []) in
  conversation P "/c/1"
  = DetailPage 200 [mkCell (Some "Guests") (Some "2 persons")] []
  /\ find_labelled "Guests" [mkCell (Some "Guests") (Some "2 persons")]
     = Some "2 persons"
  /\ (exists c : ascii, c ∈ Py.chars "2 persons" /\ Py.is_digit c = true)
  /\ (String.length "2 persons" <= 4300)%nat
  /\ exists n : Z,
       Py.int (fst (extract_guest_and_room_info P "/c/1")) = Some n
       /\ 0 <= n.
Proof.
  cbv zeta.
  assert (H1 : conversation
                 (mkPortal FetchError
                    (fun _ => DetailPage 200
                                [mkCell (Some "Guests") (Some "2 persons")] []))
                 "/c/1"
               = DetailPage 200 [mkCell (Some "Guests") (Some "2 persons")] [])
    by reflexivity.
  assert (H2 : find_labelled "Guests"
                 [mkCell (Some "Guests") (Some "2 persons")]
               = Some "2 persons") by reflexivity.
  assert (H3 : exists c : ascii,
             c ∈ Py.chars "2 persons" /\ Py.is_digit c = true).
  { exists "2"%char. split; [apply list_elem_of_here | reflexivity]. }
  assert (H4 : (String.length "2 persons" <= 4300)%nat) by (cbn; lia).
  split; [exact H1 |]. split; [exact H2 |]. split; [exact H3 |].
  split; [exact H4 |].
  destruct (scraped_guest_count_parses _ _ _ _ _ H1 H2 H3 H4)
    as [n (Hn & Hn0 & _)].
  exists n. split; [exact Hn | exact Hn0].
Defined.

Lemma digits_from_uint_acc (u : Decimal.uint) (acc : positive) :
  Py.digits_from (Z.pos acc) false (Py.chars (NilEmpty.string_of_uint u))
  = Some (Z.pos (Pos.of_uint_acc u acc)).
Proof.
  revert acc. induction u as [|u IH|u IH|u IH|u IH|u IH|u IH|u IH|u IH|u IH|u IH];
    intros acc; [reflexivity | ..];
    digit_step; cbn [Pos.of_uint_acc]; rewrite <- IH; f_equal; lia.
Qed.

Lemma digits_from_uint (u : Decimal.uint) :
  Py.digits_from 0 false (Py.chars (NilEmpty.string_of_uint u))
  = Some (Z.of_N (Pos.of_uint u)).
Proof.
  induction u as [|u IH|u IH|u IH|u IH|u IH|u IH|u IH|u IH|u IH|u IH];
    [reflexivity | digit_step; exact IH | ..];
    digit_step; cbn [Pos.of_uint Z.of_N Z.mul Z.add];
    apply digits_from_uint_acc.
Qed.

Lemma string_of_uint_digits (u : Decimal.uint) :
  Forall (fun c => Py.is_digit c = true)
    (Py.chars (NilEmpty.string_of_uint u)).
Proof.
  induction u; cbn [NilEmpty.string_of_uint]; unfold Py.chars;
    cbn [list_ascii_of_string]; constructor; auto.
Qed.

Lemma unsigned_literal_uint (u : Decimal.uint) :
  u <> Decimal.Nil ->
  Py.unsigned_literal (Py.chars (NilEmpty.string_of_uint u))
  = Some (Z.of_N (Pos.of_uint u)).
Proof.
  intros Hne. rewrite <- digits_from_uint.
  pose proof (string_of_uint_digits u) as Hd.
  destruct (Py.chars (NilEmpty.string_of_uint u)) as [|c t] eqn:E.
  - destruct u; cbn in E; discriminate || congruence.
  - apply Forall_cons in Hd as [Hc _].
    cbn [Py.unsigned_literal Py.digits_from]. rewrite Hc. reflexivity.
Qed.

(** [int(str(z))] is [z] for every integer whose text fits the limit on the
    digits of [int]. *)
Lemma int_str_of_int (z : Z) :
  (String.length (Py.str_of_int z) <= 4300)%nat ->
  Py.int (Py.str_of_int z) = Some z.
Proof.
  intros Hlen. rewrite <- length_chars in Hlen. revert Hlen.
  unfold Py.int, Py.str_of_int.
  destruct z as [|p|p]; cbn [Z.to_int NilEmpty.string_of_int].
  - reflexivity.
  - intros Hlen.
    pose proof (string_of_uint_digits (Pos.to_uint p)) as Hd.
    rewrite strip_id
      by (eapply Forall_impl; [exact Hd | apply digit_not_space]).
    pose proof (count_digits_le
                  (Py.chars (NilEmpty.string_of_uint (Pos.to_uint p)))) as Hc.
    destruct (Nat.ltb_spec Py.int_max_str_digits
                (Py.count_digits
                   (Py.chars (NilEmpty.string_of_uint (Pos.to_uint p)))))
      as [Hlt|_]; [unfold Py.int_max_str_digits in Hlt; lia |].
    pose proof (unsigned_literal_uint (Pos.to_uint p)
                  (DecimalPos.Unsigned.to_uint_nonnil p)) as Hu.
    destruct (Py.chars (NilEmpty.string_of_uint (Pos.to_uint p)))
      as [|c t] eqn:E; [discriminate Hu |].
    apply Forall_cons in Hd as [Hc0 _].
    destruct (digit_not_sign c Hc0) as [-> ->].
    rewrite Hu, DecimalPos.Unsigned.of_to. reflexivity.
  - intros Hlen.
    pose proof (string_of_uint_digits (Pos.to_uint p)) as Hd.
    change (Py.chars (String "-" ?s)) with ("-"%char :: Py.chars s) in *.
    rewrite strip_id.
    2:{ constructor; [reflexivity |].
        eapply Forall_impl; [exact Hd | apply digit_not_space]. }
    pose proof (count_digits_le
                  ("-"%char
                   :: Py.chars (NilEmpty.string_of_uint (Pos.to_uint p))))
      as Hc.
    match goal with
    | |- context [(?a <? ?b)%nat] => destruct (Nat.ltb_spec a b) as [Hlt|_]
    end; [unfold Py.int_max_str_digits in Hlt; lia |].
    change (Ascii.eqb "-" "-") with true. cbv iota.
    rewrite (unsigned_literal_uint (Pos.to_uint p)
               (DecimalPos.Unsigned.to_uint_nonnil p)).
    rewrite DecimalPos.Unsigned.of_to. reflexivity.
Qed.

(** X19. The guest count of a manual record is read back by [int] as the
    number of the form (for a number of at most 4300 characters): the
    statistics add it to the guest total, and it is no sentinel. *)
Theorem manual_booking_guests (f : Form) (today : Py.date) (total : Z) :
  (String.length (Py.str_of_int (form_number_of_guests f)) <= 4300)%nat ->
  Py.int (number_of_guests (manual_booking f today))
  = Some (form_number_of_guests f)
  /\ numeric_guests (manual_booking f today)
  /\ add_guests total (manual_booking f today)
     = total + form_number_of_guests f.
Proof.
  intros Hlen. pose proof (int_str_of_int _ Hlen) as Hint.
  cbn [manual_booking number_of_guests].
  assert (Hs : is_sentinel (Py.str_of_int (form_number_of_guests f)) = false).
  { destruct (is_sentinel _) eqn:Es; [| reflexivity].
    apply sentinel_not_int in Es. congruence. }
  split; [exact Hint |]. split.
  - split; [exact Hs | eauto].
  - unfold add_guests. cbn [manual_booking number_of_guests].
    unfold is_sentinel in Hs. apply orb_false_iff in Hs as [-> ->].
    cbn [negb andb]. now rewrite Hint.
Qed.

Lemma manual_booking_guests_witness :
  (String.length (Py.str_of_int (form_number_of_guests same_day_form))
   <= 4300)%nat
  /\ Py.int (number_of_guests (manual_booking same_day_form (jan 1))) = Some 1
  /\ add_guests 5 (manual_booking same_day_form (jan 1)) = 6.
Proof.
  assert (H : (String.length
                 (Py.str_of_int (form_number_of_guests same_day_form))
               <= 4300)%nat) by (cbn; lia).
  split; [exact H |].
  destruct (manual_booking_guests same_day_form (jan 1) 5 H) as (H1 & _ & H2).
  split; [exact H1 | exact H2].
Defined.

(** ** More on the views *)

(** X20. A booking is listed under hostel [h] and room key [r] of the
    current-guests view exactly when it is one of the bookings, its type is
    "Current", its hostel is [h] and its room key is [r]: bookings of any
    other type are listed nowhere. *)
Theorem display_current_guests_by_hostel_member (bookings : list Booking)
  (h r : string) (b : Booking) :
  b ∈ default [] (assoc h (display_current_guests_by_hostel bookings)
                    ≫= assoc r)
  <-> b ∈ bookings /\ booking_type b = "Current" /\ hostel b = h
      /\ room_key b = r.
Proof.
  rewrite display_current_guests_by_hostel_groups.
  set (g := filter (fun b => room_key b = r)
              (filter (fun b => hostel b = h)
                 (filter (fun b => booking_type b = "Current") bookings))).
  assert (Hg : default [] (nonempty g) = g) by (destruct g; reflexivity).
  rewrite Hg. unfold g. rewrite !list_elem_of_filter. tauto.
Qed.

(** X21. In every section of the occupancy report the buckets ascend by the
    text of their departure date, and no date labels two buckets. *)
Theorem display_occupancy_by_hostel_buckets (bookings : list Booking)
  (selected_hostel : string) (start end_ : Py.date)
  (hostels : list (string * (Z * list (string * list Booking))))
  (h : string) (g : Z) (buckets : list (string * list Booking)) :
  display_occupancy_by_hostel bookings selected_hostel start end_
  = Sections hostels ->
  (h, (g, buckets)) ∈ hostels ->
  Sorted key_le buckets /\ NoDup buckets.*1.
Proof.
  intros Hr Hin. split.
  - eapply display_occupancy_by_hostel_sorted; eassumption.
  - eapply display_occupancy_by_hostel_distinct; eassumption.
Qed.

Lemma display_occupancy_by_hostel_buckets_witness :
  exists hostels : list (string * (Z * list (string * list Booking))),
    display_occupancy_by_hostel [stay_jan; stay_feb] "All" (jan 1) (jan 31)
    = Sections hostels
    /\ ("Tamraght",
        (5, [("2024-Feb-02", [stay_feb]); ("2024-Jan-20", [stay_jan])]))
       ∈ hostels
    /\ Sorted key_le
         [("2024-Feb-02", [stay_feb]); ("2024-Jan-20", [stay_jan])].
Proof.
  eexists.
  assert (H : display_occupancy_by_hostel [stay_jan; stay_feb] "All"
                (jan 1) (jan 31)
              = Sections
                  [("Tamraght",
                    (5, [("2024-Feb-02", [stay_feb]);
                         ("2024-Jan-20", [stay_jan])]))])
    by (vm_compute; reflexivity).
  assert (Hin : ("Tamraght",
                 (5, [("2024-Feb-02", [stay_feb]);
                      ("2024-Jan-20", [stay_jan])]))
                ∈ [("Tamraght",
                    (5, [("2024-Feb-02", [stay_feb]);
                         ("2024-Jan-20", [stay_jan])]))])
    by apply list_elem_of_here.
  split; [exact H |]. split; [exact Hin |].
  exact (proj1 (display_occupancy_by_hostel_buckets _ _ _ _ _ _ _ _ H Hin)).
Defined.

(** X22. A booking whose conversation page cannot be read is not dropped:
    an item with a link and its name and title in place gives a record with
    the full link, the guest count and room type "Not found", shown under
    "Unknown Room" and adding nothing to the guest total. *)
Theorem extract_booking_detail_failure (P : Portal) (t href name title : string)
  (item : Item) (total : Z) :
  customer_name item = Some (Some name) ->
  listing_title item = Some (Some title) ->
  btn_info item = Some href -> href <> EmptyString ->
  (conversation P (base_url +:+ href) = DetailError
   \/ exists (status : Z) (g r : list Cell),
        conversation P (base_url +:+ href) = DetailPage status g r
        /\ status <> 200) ->
  exists b : Booking,
    extract_booking P t item = Some b
    /\ conversation_link b = Some (base_url +:+ href)
    /\ number_of_guests b = "Not found"
    /\ room_type b = "Not found"
    /\ room_key b = "Unknown Room"
    /\ add_guests total b = total.
Proof.
  intros Hn Ht Hb Hne Hfail.
  assert (Hinfo : extract_guest_and_room_info P (base_url +:+ href)
                  = ("Not found", "Not found")).
  { unfold extract_guest_and_room_info.
    destruct Hfail as [-> | (status & g & r & -> & Hs)]; [reflexivity |].
    destruct (Z.eqb_spec status 200); [contradiction | reflexivity]. }
  unfold extract_booking. rewrite Hn, Ht, Hb. cbn [mbind option_bind href_of].
  apply truthy_nonempty in Hne. rewrite Hne.
  destruct (inquiry_meta item) as [strong_elements|]; rewrite Hinfo;
    eexists; (split; [reflexivity |]); repeat split; reflexivity.
Qed.

Lemma extract_booking_detail_failure_witness :
  let item := mkItem (Some (Some "Lina")) (Some (Some "Weekend Tamraght Trip"))
                (Some ["120 EUR"; "2024-Jan-10"; "2024-Jan-20"])
                (Some "/c/7") None in
  customer_name item = Some (Some "Lina")
  /\ listing_title item = Some (Some "Weekend Tamraght Trip")
  /\ btn_info item = Some "/c/7"
  /\ "/c/7" <> EmptyString
  /\ conversation portal_down (base_url +:+ "/c/7") = DetailError
  /\ exists b : Booking,
       extract_booking portal_down "current" item = Some b
       /\ room_key b = "Unknown Room".
Proof.
  cbv zeta.
  set (item := mkItem (Some (Some "Lina")) (Some (Some "Weekend Tamraght Trip"))
                 (Some ["120 EUR"; "2024-Jan-10"; "2024-Jan-20"])
                 (Some "/c/7") None).
  assert (H1 : customer_name item = Some (Some "Lina")) by reflexivity.
  assert (H2 : listing_title item = Some (Some "Weekend Tamraght Trip"))
    by reflexivity.
  assert (H3 : btn_info item = Some "/c/7") by reflexivity.
  assert (H4 : "/c/7" <> EmptyString) by discriminate.
  assert (H5 : conversation portal_down (base_url +:+ "/c/7") = DetailError)
    by reflexivity.
  split; [exact H1 |]. split; [exact H2 |]. split; [exact H3 |].
  split; [exact H4 |]. split; [exact H5 |].
  destruct (extract_booking_detail_failure portal_down "current" "/c/7"
              "Lina" "Weekend Tamraght Trip" item 0 H1 H2 H3 H4 (or_introl H5))
    as [b (E & _ & _ & _ & K & _)].
  exists b. split; [exact E | exact K].
Defined.

Lemma main_step_submit_empty (f : Form) (today : Py.date) (s : Session)
  (d : Disk) :
  session_bookings s = [] -> main_step (SubmitManual f today) s d = (s, d).
Proof. intros H. cbn [main_step]. now rewrite H. Qed.

(** X23. As long as the session holds no bookings the manual-entry form is
    not on the page: from a fresh session, interactions that are all form
    submissions change neither the session nor the disk. *)
Theorem main_run_submit_only (actions : list Action) (d : Disk) :
  Forall is_submit actions ->
  main_run actions initial_session d = (initial_session, d).
Proof.
  induction actions as [|a actions IH] using rev_ind; intros H;
    [reflexivity |].
  apply Forall_app in H as [Hl Ha]. apply Forall_cons in Ha as [Ha _].
  rewrite main_run_snoc, (IH Hl). cbn [fst snd].
  destruct a; try contradiction. now apply main_step_submit_empty.
Qed.

Lemma main_run_submit_only_witness :
  Forall is_submit [SubmitManual same_day_form (jan 1)]
  /\ main_run [SubmitManual same_day_form (jan 1)] initial_session empty_disk
     = (initial_session, empty_disk).
Proof.
  assert (H : Forall is_submit [SubmitManual same_day_form (jan 1)])
    by (apply Forall_cons_2; [exact I | apply Forall_nil_2]).
  split; [exact H |].
  exact (main_run_submit_only [SubmitManual same_day_form (jan 1)]
           empty_disk H).
Defined.
